(** * RankScore: a shallow embedding of [api.py] and its checked properties

    The development follows the layout of the Python module:
    - [Py]: the fragment of Python's dynamic semantics the module relies on
      (exceptions, truthiness of the few values involved);
    - [Html]: the parsed document as the extractors query it;
    - [Extract]: the signal extractors ([analyze_accessibility],
      [analyze_lite_aeo], [analyze_page_speed]);
    - [Scorer]: [calculate_rankscore];
    - [AccessGate]: the [access_codes] table and its three operations;
    - [History]: the [scans] and [recommendations] tables;
    - [Signals], [QuickWins], [Progress], [App]: the remaining extractors,
      the recommendation engine, the progress summary and the flows of
      [main];
    - [FlaskApi]: the Flask service of the second source file.

    External collaborators (the HTTP fetcher, the HTML parser, the clocks and
    the random source) are passed in as explicit arguments. *)

From Stdlib Require Import String Ascii.
From Stdlib Require Import ZArith QArith Qround List Bool Lia.
From Stdlib Require Import Sorting.Sorted Sorting.Permutation.
Import ListNotations.

Local Open Scope string_scope.
Local Open Scope list_scope.
Local Open Scope Z_scope.

(* ===================================================================== *)
(** ** Python: exceptions and the error monad *)
(* ===================================================================== *)

Module Py.

(** The exception classes that the modelled code can meet.  All of them
    derive from [Exception], so a bare [except Exception] catches each. *)
Inductive exn : Type :=
| NameError (name : string)
| UnboundLocalError (name : string)
| TypeError (msg : string)
| KeyError (key : string)
| RequestException (msg : string)
| ParserRejectedMarkup
| IntegrityError (column : string)
| OperationalError (msg : string)
| ProgrammingError (needed supplied : nat)
| RecursionError.

(** A computation either raises or returns. *)
Definition result (A : Type) : Type := (exn + A)%type.

Definition ret {A} (a : A) : result A := inr a.
Definition raise {A} (e : exn) : result A := inl e.

Definition bind {A B} (c : result A) (k : A -> result B) : result B :=
  match c with
  | inl e => inl e
  | inr a => k a
  end.

(** [try: c  except Exception as e: h e] *)
Definition try_except {A} (c : result A) (h : exn -> A) : A :=
  match c with
  | inl e => h e
  | inr a => a
  end.

(** [sqlite3.IntegrityError] is the only class the access gate catches. *)
Definition is_IntegrityError (e : exn) : bool :=
  match e with
  | IntegrityError _ => true
  | _ => false
  end.

End Py.

Declare Scope py_scope.
Delimit Scope py_scope with py.
Notation "x <- c ;; k" := (Py.bind c (fun x => k))
  (at level 61, c at next level, right associativity) : py_scope.
Notation "c ;;; k" := (Py.bind c (fun _ => k))
  (at level 61, right associativity) : py_scope.

(* ===================================================================== *)
(** ** The parsed document *)
(* ===================================================================== *)

Module Html.

(** One element of the document.  [attrs] keeps the attributes as the
    parser delivers them (an attribute written without a value, or with an
    empty one, is present with the empty string); [text] is the element's
    [.string]. *)
Record Tag : Type := mkTag {
  tag_name : string;
  attrs : list (string * string);
  text : option string
}.

(** A [BeautifulSoup] object, as far as the extractors can see it: its
    elements in document order. *)
Definition Soup : Type := list Tag.

(** [tag.get(key)] *)
Fixpoint get_attr (l : list (string * string)) (key : string) : option string :=
  match l with
  | [] => None
  | (k, v) :: rest => if String.eqb k key then Some v else get_attr rest key
  end.

(** [tag.has_attr(key)] *)
Definition has_attr (t : Tag) (key : string) : bool :=
  match get_attr (attrs t) key with
  | Some _ => true
  | None => false
  end.

(** [tag[key]]: raises [KeyError] on an absent attribute. *)
Definition getitem (t : Tag) (key : string) : Py.result string :=
  match get_attr (attrs t) key with
  | Some v => Py.ret v
  | None => Py.raise (Py.KeyError key)
  end.

(** [soup.find_all(name)] *)
Definition find_all (soup : Soup) (name : string) : list Tag :=
  filter (fun t => String.eqb (tag_name t) name) soup.

(** [soup.find_all(name, key=True)]: the attribute must be present. *)
Definition find_all_with (soup : Soup) (name key : string) : list Tag :=
  filter (fun t => String.eqb (tag_name t) name && has_attr t key) soup.

(** [soup.find_all(name, key=value)] *)
Definition find_all_eq (soup : Soup) (name key value : string) : list Tag :=
  filter (fun t => String.eqb (tag_name t) name &&
                   match get_attr (attrs t) key with
                   | Some v => String.eqb v value
                   | None => false
                   end) soup.

(** [soup.title], that is [soup.find("title")]: the first such element or
    [None]. *)
Definition title (soup : Soup) : option Tag :=
  match find_all soup "title" with
  | [] => None
  | t :: _ => Some t
  end.

(** [bool(x)] for [x] a [Tag] or [None]: [Tag.__bool__] answers [True]
    whatever the element contains. *)
Definition bool_of_tag (x : option Tag) : bool :=
  match x with
  | Some _ => true
  | None => false
  end.

End Html.

(* ===================================================================== *)
(** ** The outside world of one scan *)
(* ===================================================================== *)

(** [requests.get] gives a response or raises; [BeautifulSoup(text,
    "html.parser")] gives a document or raises; [requests.head] gives the
    headers of a resource or raises. *)
Record Response : Type := mkResponse {
  response_text : string
}.

Record Web : Type := mkWeb {
  (* [requests.get(url, timeout=10)] *)
  requests_get : string -> Py.result Response;
  (* [requests.get(url, stream=True)] *)
  requests_get_stream : string -> Py.result Response;
  BeautifulSoup : string -> Py.result Html.Soup;
  (* [requests.head(u).headers.get("content-length", 0)] converted by [int] *)
  requests_head_length : string -> Py.result Z
}.

(* ===================================================================== *)
(** ** Scorer *)
(* ===================================================================== *)

Module Scorer.

(** The dictionary built by [analyze_metadata].  [title] is
    [soup.title.string], which Python leaves as [None] for a title element
    without a single text child. *)
Record Metadata : Type := mkMetadata {
  title : option string;
  description : string;
  recommendation : string
}.

Record Headers : Type := mkHeaders {
  h1_present : bool;
  h2_present : bool;
  h1_count : nat;
  h2_count : nat
}.

(** [x != "Missing"] for [x] a string or [None]. *)
Definition neq_Missing (x : option string) : bool :=
  match x with
  | Some s => negb (String.eqb s "Missing")
  | None => true
  end.

Record ComponentScores : Type := mkComponents {
  c_structured_data : Z;
  c_faq : Z;
  c_headers : Z;
  c_title : Z;
  c_speed : Z;
  c_description : Z;
  c_mobile : Z;
  c_accessibility : Z
}.

Record Subscores : Type := mkSubscores {
  content_structure : Z;
  technical : Z;
  metadata_subscore : Z;
  accessibility_subscore : Z
}.

Record ScoreResult : Type := mkScore {
  total_score : Z;
  subscores : Subscores;
  component_scores : ComponentScores
}.

(** [calculate_rankscore]; [performance_score] stands for
    [speed_metrics["performance_score"]]. *)
Definition calculate_rankscore
    (metadata : Metadata) (headers : Headers)
    (structured_data faq_present mobile_friendly accessibility : bool)
    (performance_score : Z) : ScoreResult :=
  let structured_data_score := if structured_data then 25 else 0 in
  let faq_score := if faq_present then 20 else 0 in
  let header_score := if h1_present headers then 15 else 0 in
  let title_score := if neq_Missing (title metadata) then 10 else 0 in
  let speed_score := if (80 <=? performance_score)%Z then 10 else 0 in
  let description_score :=
    if neq_Missing (Some (description metadata)) then 8 else 0 in
  let mobile_score := if mobile_friendly then 7 else 0 in
  let accessibility_score := if accessibility then 5 else 0 in
  let total := structured_data_score + faq_score + header_score +
               title_score + speed_score + description_score +
               mobile_score + accessibility_score in
  {| total_score := total;
     subscores :=
       {| content_structure := structured_data_score + faq_score + header_score;
          technical := speed_score + mobile_score;
          metadata_subscore := title_score + description_score;
          accessibility_subscore := accessibility_score |};
     component_scores :=
       {| c_structured_data := structured_data_score;
          c_faq := faq_score;
          c_headers := header_score;
          c_title := title_score;
          c_speed := speed_score;
          c_description := description_score;
          c_mobile := mobile_score;
          c_accessibility := accessibility_score |} |}.

(** The sum of the eight entries of [component_scores]. *)
Definition sum_components (c : ComponentScores) : Z :=
  c_structured_data c + c_faq c + c_headers c + c_title c +
  c_speed c + c_description c + c_mobile c + c_accessibility c.

(** The point table of the specification: [w] points when the signal
    holds, none otherwise. *)
Definition points (w : Z) (signal : bool) : Z := if signal then w else 0.

End Scorer.

(* ===================================================================== *)
(** ** Signal extractors *)
(* ===================================================================== *)

Module Extract.
Import Html.

(** *** Accessibility *)

(** [analyze_accessibility]: [img.has_attr("alt")] keeps an image as soon
    as the attribute is there. *)
Definition analyze_accessibility (soup : Soup) : bool :=
  let images := find_all soup "img" in
  let images_with_alt := filter (fun img => has_attr img "alt") images in
  Nat.eqb (List.length images_with_alt) (List.length images).

(** The signal as the specification words it: the images counted are those
    with a non-empty [alt]. *)
Definition nonempty_alt (img : Tag) : bool :=
  match get_attr (attrs img) "alt" with
  | Some v => negb (String.eqb v "")
  | None => false
  end.

Definition spec_accessibility (soup : Soup) : bool :=
  let images := find_all soup "img" in
  Nat.eqb (List.length (filter nonempty_alt images)) (List.length images).

(** *** Lite score *)

(** [analyze_lite_aeo] *)
Definition analyze_lite_aeo (w : Web) (url : string) : Z :=
  Py.try_except
    (response <- requests_get w url ;;
     soup <- BeautifulSoup w (response_text response) ;;
     let title_present := bool_of_tag (title soup) in
     Py.ret (if title_present then 65 else 50))%py
    (fun _ => 0).

(** *** Page speed *)

(** The Python values that the resource comprehension manipulates. *)
#[warnings="-register-all"]
Inductive value : Type :=
| VNone
| VStr (s : string)
| VInt (z : Z)
| VTag (t : Tag)
| VList (l : list value)     (* [list], and bs4's [ResultSet] subclass *)
| VTuple (l : list value)
| VDict (d : list (string * value))
| VOther.                    (* functions, modules and other objects *)

(** [a + b] *)
Definition py_add (a b : value) : Py.result value :=
  match a, b with
  | VList x, VList y => Py.ret (VList (x ++ y))
  | VTuple x, VTuple y => Py.ret (VTuple (x ++ y))
  | VStr x, VStr y => Py.ret (VStr (String.append x y))
  | VInt x, VInt y => Py.ret (VInt (x + y))
  | VList _, _ =>
      Py.raise (Py.TypeError "can only concatenate list to list")
  | _, _ => Py.raise (Py.TypeError "unsupported operand type(s) for +")
  end.

(** [d.get(key)] on a dictionary with string keys *)
Fixpoint dict_get (d : list (string * value)) (key : string)
  : option value :=
  match d with
  | [] => None
  | (k, v) :: rest => if String.eqb k key then Some v else dict_get rest key
  end.

(** [v[key]] for a string [key] *)
Definition py_getitem (v : value) (key : string) : Py.result value :=
  match v with
  | VTag t => (s <- getitem t key ;; Py.ret (VStr s))%py
  | VDict d =>
      match dict_get d key with
      | Some x => Py.ret x
      | None => Py.raise (Py.KeyError key)
      end
  | _ => Py.raise (Py.TypeError "object is not subscriptable by str")
  end.

(** [for x in v]: the items a value yields when iterated. *)
Definition py_iter (v : value) : Py.result (list value) :=
  match v with
  | VList l => Py.ret l
  | VTuple l => Py.ret l
  | _ => Py.raise (Py.TypeError "object is not iterable")
  end.

(** The module's global scope (with the builtins behind it): a name that
    no scope binds raises [NameError]. *)
Definition Globals : Type := string -> option value.

Definition load_global (g : Globals) (name : string) : Py.result value :=
  match g name with
  | Some v => Py.ret v
  | None => Py.raise (Py.NameError name)
  end.

(** Run [body] for each item and chain what it yields, stopping at the
    first exception. *)
Fixpoint for_each {A B} (items : list A) (body : A -> Py.result (list B))
  : Py.result (list B) :=
  match items with
  | [] => Py.ret []
  | x :: rest =>
      (ys <- body x ;; zs <- for_each rest body ;; Py.ret (ys ++ zs))%py
  end.

(** The comprehension that builds [resources].  Python reads it as three
    nested [for] clauses:
<<
    [(script["src"], "script")
       for script in soup.find_all("script", src=True) + (link["href"], "css")
       for link   in soup.find_all("link", rel="stylesheet") + (img["src"], "image")
       for img    in soup.find_all("img", src=True)]
>>
    The first iterable is evaluated in the scope of [analyze_page_speed],
    which assigns no [link], so the name is looked up among the globals.
    The second iterable is evaluated inside the comprehension, once per
    [script], at a point where its own variable [img] is not bound yet. *)
Definition discover_resources (g : Globals) (soup : Soup)
  : Py.result (list (string * string)) :=
  (let scripts := VList (map VTag (find_all_with soup "script" "src")) in
   link <- load_global g "link" ;;
   href <- py_getitem link "href" ;;
   first_iterable <- py_add scripts (VTuple [href; VStr "css"]) ;;
   items <- py_iter first_iterable ;;
   for_each items (fun script : value =>
     let links := VList (map VTag (find_all_eq soup "link" "rel" "stylesheet")) in
     img <- (Py.raise (Py.UnboundLocalError "img") : Py.result value) ;;
     src <- py_getitem img "src" ;;
     second_iterable <- py_add links (VTuple [src; VStr "image"]) ;;
     items2 <- py_iter second_iterable ;;
     for_each items2 (fun link : value =>
       for_each (find_all_with soup "img" "src") (fun img : Tag =>
         s <- py_getitem script "src" ;;
         match s with
         | VStr u => Py.ret [(u, "script")]
         | _ => Py.raise (Py.TypeError "src is not a string")
         end))))%py.

(** The three readings of [time.time()], in seconds. *)
Record Timing : Type := mkTiming {
  t_start : Q;
  t_response : Q;
  t_done : Q
}.

(** [round(x)] on an exact value: nearest integer, ties to even. *)
Definition round_half_even (q : Q) : Z :=
  let f := Qfloor q in
  match Qcompare (q - inject_Z f)%Q (1 # 2)%Q with
  | Lt => f
  | Gt => f + 1
  | Eq => if Z.even f then f else f + 1
  end.

(** [round(x, 2)] *)
Definition round2 (q : Q) : Q :=
  Qred (inject_Z (round_half_even (q * inject_Z 100)%Q) / inject_Z 100)%Q.

(** [x > y] on numbers *)
Definition Qgtb (x y : Q) : bool := negb (Qle_bool x y).

Record Metrics : Type := mkMetrics {
  error : option string;
  total_time : Q;
  time_to_first_byte : Q;
  resource_count : Z;
  total_size : Z;
  resource_types : list (string * Z);
  performance_score : Z
}.

(** [d[k] = d.get(k, 0) + 1] *)
Fixpoint bump (d : list (string * Z)) (k : string) : list (string * Z) :=
  match d with
  | [] => [(k, 1)]
  | (k', n) :: rest =>
      if String.eqb k' k then (k', n + 1) :: rest else (k', n) :: bump rest k
  end.

(** [f"{urlparse(url).scheme}://{urlparse(url).netloc}"], delegated to the
    URL library. *)
Definition UrlLib : Type := string -> string.

(** The nested [fetch_resource] *)
Definition fetch_resource (w : Web) (base_url : UrlLib) (url : string)
    (resource : string * string) : string * Z :=
  let (resource_url, resource_type) := resource in
  let resource_url :=
    if String.prefix "http://" resource_url
       || String.prefix "https://" resource_url
    then resource_url
    else String.append (base_url url) resource_url in
  Py.try_except
    (size <- requests_head_length w resource_url ;;
     Py.ret (resource_type, size))%py
    (fun _ => (resource_type, 0)).

(** The penalty rule at the end of [analyze_page_speed]. *)
Definition score_rule (ttfb total : Q) (count size : Z) : Z :=
  let score := 100 in
  let score := if Qgtb ttfb (inject_Z 200) then score - 20 else score in
  let score := if Qgtb total (inject_Z 3000) then score - 20 else score in
  let score := if (50 <? count)%Z then score - 20 else score in
  let score := if (5000000 <? size)%Z then score - 20 else score in
  Z.max 0 score.

(** [str(e)] *)
Definition str_of_exn (e : Py.exn) : string :=
  match e with
  | Py.NameError n => ("name '" ++ n ++ "' is not defined")%string
  | Py.UnboundLocalError n =>
      ("cannot access local variable '" ++ n ++ "'")%string
  | Py.TypeError m => m
  | Py.KeyError k => k
  | Py.RequestException m => m
  | Py.ParserRejectedMarkup => "parser rejected markup"
  | Py.IntegrityError c => ("UNIQUE constraint failed: " ++ c)%string
  | Py.OperationalError m => m
  | Py.ProgrammingError _ _ => "Incorrect number of bindings supplied."
  | Py.RecursionError => "maximum recursion depth exceeded"
  end.

(** The dictionary returned from the [except] branch. *)
Definition fallback (e : Py.exn) : Metrics :=
  {| error := Some (str_of_exn e);
     total_time := 0; time_to_first_byte := 0; resource_count := 0;
     total_size := 0; resource_types := []; performance_score := 0 |}.

(** [analyze_page_speed] *)
Definition analyze_page_speed (w : Web) (g : Globals) (base_url : UrlLib)
    (clk : Timing) (url : string) : Metrics :=
  Py.try_except
    (let start_time := t_start clk in
     response <- requests_get_stream w url ;;
     let ttfb := (t_response clk - start_time)%Q in
     let time_to_first_byte := round2 (ttfb * inject_Z 1000)%Q in
     soup <- BeautifulSoup w (response_text response) ;;
     resources <- discover_resources g soup ;;
     let resource_count := Z.of_nat (List.length resources) in
     let results := map (fetch_resource w base_url url) resources in
     let total_size := fold_left (fun acc r => acc + snd r) results 0 in
     let resource_types := fold_left (fun d r => bump d (fst r)) results [] in
     let total_time :=
       round2 ((t_done clk - start_time) * inject_Z 1000)%Q in
     Py.ret {| error := None;
               total_time := total_time;
               time_to_first_byte := time_to_first_byte;
               resource_count := resource_count;
               total_size := total_size;
               resource_types := resource_types;
               performance_score :=
                 score_rule time_to_first_byte total_time
                            resource_count total_size |})%py
    fallback.

(** The rule as the specification words it: 20 points off for each
    threshold that fires, never below 0. *)
Definition fires (b : bool) : Z := if b then 1 else 0.

Definition spec_performance_score (ttfb total : Q) (count size : Z) : Z :=
  Z.max 0 (100 - 20 * (fires (Qgtb ttfb (inject_Z 200)) +
                       fires (Qgtb total (inject_Z 3000)) +
                       fires (50 <? count)%Z +
                       fires (5000000 <? size)%Z)).

End Extract.

(* ===================================================================== *)
(** ** Access gate: the [access_codes] table *)
(* ===================================================================== *)

Module AccessGate.

(** One row of [access_codes], as [init_db] declares the table: [email]
    and [code] are both [UNIQUE], [used] defaults to 0. *)
Record AccessCode : Type := mkAccessCode {
  ac_id : Z;
  email : string;
  code : string;
  used : bool
}.

Definition Table : Type := list AccessCode.

(** [string.ascii_uppercase + string.digits] *)
Definition alphabet : list ascii :=
  list_ascii_of_string "ABCDEFGHIJKLMNOPQRSTUVWXYZ0123456789".

(** The random source: the index picked by the [k]-th call of
    [secrets.choice]. *)
Definition Secrets : Type := nat -> nat.

Definition choice (rng : Secrets) (k : nat) : ascii :=
  nth (Nat.modulo (rng k) (List.length alphabet)) alphabet "A"%char.

(** [generate_unique_code]: eight draws, starting at draw [k]; also
    returns the position of the next draw. *)
Definition generate_unique_code (rng : Secrets) (k : nat) : string * nat :=
  (string_of_list_ascii (map (fun i => choice rng (k + i)%nat) (seq 0 8)),
   (k + 8)%nat).

Definition next_id (db : Table) : Z :=
  1 + fold_right Z.max 0 (map ac_id db).

(** The two [UNIQUE] indexes. *)
Definition email_taken (db : Table) (e : string) : bool :=
  existsb (fun r => String.eqb (email r) e) db.

Definition code_taken (db : Table) (c : string) : bool :=
  existsb (fun r => String.eqb (code r) c) db.

(** [INSERT INTO access_codes (email, code) VALUES (?, ?)] under the two
    uniqueness constraints. *)
Definition insert (db : Table) (new_email new_code : string)
  : Py.result Table :=
  if email_taken db new_email then
    Py.raise (Py.IntegrityError "access_codes.email")
  else if code_taken db new_code then
    Py.raise (Py.IntegrityError "access_codes.code")
  else
    Py.ret (db ++ [ {| ac_id := next_id db; email := new_email;
                       code := new_code; used := false |} ]).

(** The [INSERT] as a connection executes it.  The statement opens a write
    transaction first; while another connection of the process holds one,
    SQLite refuses with [database is locked]. *)
Definition execute_insert (locked : bool) (db : Table)
    (new_email new_code : string) : Py.result Table :=
  if locked then Py.raise (Py.OperationalError "database is locked")
  else insert db new_email new_code.

(** [save_access_code].  The function calls itself from its
    [except sqlite3.IntegrityError] branch, inside the [with] block: the
    connection of the failed [INSERT] is still open there, with its
    transaction, and so with the write lock.  [locked] tells whether a
    caller's connection holds that lock; [depth] is the number of frames the
    interpreter still grants before [RecursionError]. *)
Fixpoint save_access_code (depth : nat) (rng : Secrets) (k : nat)
    (locked : bool) (db : Table) (new_email : string)
  : Py.result (string * Table) :=
  match depth with
  | O => Py.raise Py.RecursionError
  | S depth' =>
      let (new_code, k') := generate_unique_code rng k in
      match execute_insert locked db new_email new_code with
      | inr db' => Py.ret (new_code, db')
      | inl e =>
          if Py.is_IntegrityError e
          then save_access_code depth' rng k' true db new_email
          else Py.raise e
      end
  end.

(** The code of the [i]-th attempt of a call whose first draw is [k]. *)
Definition attempt (rng : Secrets) (k i : nat) : string :=
  fst (generate_unique_code rng (k + 8 * i)%nat).

(** [cursor.execute(sql, parameters)] with one [?] in [sql]: the
    parameters are taken as a sequence, and its length must be 1. *)
Definition bind1 (parameters : list string) : Py.result string :=
  match parameters with
  | [p] => Py.ret p
  | _ => Py.raise (Py.ProgrammingError 1 (List.length parameters))
  end.

(** The one-element tuple [(x,)]. *)
Definition tuple1 (x : string) : list string := [x].

(** A [str] taken as a sequence: its characters, one string each.  This
    is what [(x)], which is just [x], amounts to as [parameters]. *)
Definition str_as_sequence (x : string) : list string :=
  map (fun c => String c EmptyString) (list_ascii_of_string x).

(** [validate_access_code]: [fetchone()] of
    [SELECT * FROM access_codes WHERE code = ? AND used = 0]
    with parameters [(user_code,)]. *)
Definition validate_access_code (db : Table) (user_code : string)
  : Py.result (option AccessCode) :=
  (p <- bind1 (tuple1 user_code) ;;
   Py.ret (find (fun r => String.eqb (code r) p && negb (used r)) db))%py.

(** The effect of [SET used = 1 WHERE code = p] on one row. *)
Definition set_used (p : string) (r : AccessCode) : AccessCode :=
  if String.eqb (code r) p
  then {| ac_id := ac_id r; email := email r; code := code r; used := true |}
  else r.

(** [mark_code_as_used]:
    [UPDATE access_codes SET used = 1 WHERE code = ?]
    with parameters [(user_code)]. *)
Definition mark_code_as_used (db : Table) (user_code : string)
  : Py.result Table :=
  (p <- bind1 (str_as_sequence user_code) ;;
   Py.ret (map (set_used p) db))%py.

(** The flag of the rows that carry [c]. *)
Definition used_flags (db : Table) (c : string) : list bool :=
  map used (filter (fun r => String.eqb (code r) c) db).

End AccessGate.

(* ===================================================================== *)
(** ** History store: the [scans] and [recommendations] tables *)
(* ===================================================================== *)

Module History.

(** A naive wall-clock reading, as the text that the [datetime] adapter
    stores ([isoformat(" ")]): whole seconds on the calendar, then the
    microseconds. *)
Record DateTime : Type := mkDateTime {
  seconds : Z;
  microsecond : Z
}.

(** One instant, as the host sees it: the UTC time and the offset of the
    host's local time zone, in seconds. *)
Record Clock : Type := mkClock {
  utc : Z;
  micro : Z;
  utc_offset : Z
}.

(** Python's [datetime.now()]: naive local time. *)
Definition datetime_now (c : Clock) : DateTime :=
  {| seconds := utc c + utc_offset c; microsecond := micro c |}.

(** SQLite's [datetime('now', '-1 minute')]: UTC, as the text
    [YYYY-MM-DD HH:MM:SS] without a fraction. *)
Definition sqlite_now_minus_1_minute (c : Clock) : Z := utc c - 60.

(** [scan_date >= t] between the two texts: the 19 leading characters
    decide, and on a tie the stored text is the same or longer. *)
Definition text_ge (d : DateTime) (t : Z) : bool := t <=? seconds d.

(** [ORDER BY scan_date] on the stored texts. *)
Definition date_leb (a b : DateTime) : bool :=
  (seconds a <? seconds b) ||
  ((seconds a =? seconds b) && (microsecond a <=? microsecond b)).

Record ScanRecord : Type := mkScan {
  scan_id : Z;
  scan_url : string;
  scan_date : DateTime;
  scan_total_score : Z;
  content_structure_score : Z;
  technical_score : Z;
  metadata_score : Z;
  accessibility_score : Z;
  speed_score : Z;
  structured_data_present : bool;
  faq_present : bool;
  mobile_friendly : bool
}.

Record Recommendation : Type := mkRec {
  rec_id : Z;
  rec_url : string;
  creation_date : DateTime;
  rec_type : string;
  rec_description : string;
  priority : Z;
  points_potential : Z;
  status : string;
  implementation_date : option DateTime;
  notes : option string
}.

(** One entry of the list handed to [save_recommendations]. *)
Record Issue : Type := mkIssue {
  issue_type : string;
  message : string;
  issue_priority : Z;
  points_available : Z
}.

(** [SELECT COUNT( * ) FROM scans WHERE url = ? AND
    scan_date >= datetime('now', '-1 minute')] *)
Definition count_recent (clk : Clock) (scans : list ScanRecord)
    (url : string) : nat :=
  List.length
    (filter (fun r => String.eqb (scan_url r) url &&
                      text_ge (scan_date r) (sqlite_now_minus_1_minute clk))
            scans).

Definition next_scan_id (scans : list ScanRecord) : Z :=
  1 + fold_right Z.max 0 (map scan_id scans).

(** [save_scan_results]; [performance_score] stands for
    [speed_metrics["performance_score"]]. *)
Definition save_scan_results (clk : Clock) (scans : list ScanRecord)
    (url : string) (score_data : Scorer.ScoreResult)
    (structured_data faq mobile : bool) (performance_score : Z)
  : list ScanRecord :=
  if (0 <? count_recent clk scans url)%nat then scans
  else
    let sub := Scorer.subscores score_data in
    scans ++
    [ {| scan_id := next_scan_id scans;
         scan_url := url;
         scan_date := datetime_now clk;
         scan_total_score := Scorer.total_score score_data;
         content_structure_score := Scorer.content_structure sub;
         technical_score := Scorer.technical sub;
         metadata_score := Scorer.metadata_subscore sub;
         accessibility_score := Scorer.accessibility_subscore sub;
         speed_score := performance_score;
         structured_data_present := structured_data;
         faq_present := faq;
         mobile_friendly := mobile |} ].

(** [SELECT COUNT( * ) FROM recommendations WHERE url = ? AND type = ?
    AND status = 'pending'] *)
Definition is_pending_for (url type : string) (r : Recommendation) : bool :=
  String.eqb (rec_url r) url && String.eqb (rec_type r) type &&
  String.eqb (status r) "pending".

Definition count_pending (recs : list Recommendation) (url type : string)
  : nat :=
  List.length (filter (is_pending_for url type) recs).

Definition next_rec_id (recs : list Recommendation) : Z :=
  1 + fold_right Z.max 0 (map rec_id recs).

Definition new_recommendation (recs : list Recommendation) (url : string)
    (now : DateTime) (rec : Issue) : Recommendation :=
  {| rec_id := next_rec_id recs;
     rec_url := url;
     creation_date := now;
     rec_type := issue_type rec;
     rec_description := message rec;
     priority := issue_priority rec;
     points_potential := points_available rec;
     status := "pending";
     implementation_date := None;
     notes := None |}.

(** One turn of the loop of [save_recommendations]: the count, then the
    insertion when it is zero. *)
Definition step (now : DateTime) (recs : list Recommendation)
    (url : string) (rec : Issue) : list Recommendation :=
  if Nat.eqb (count_pending recs url (issue_type rec)) 0
  then recs ++ [new_recommendation recs url now rec]
  else recs.

(** The loop itself; [now i] is the reading of [datetime.now()] in
    iteration [i]. *)
Fixpoint save_loop (now : nat -> DateTime) (i : nat)
    (recs : list Recommendation) (url : string)
    (recommendations : list Issue) : list Recommendation :=
  match recommendations with
  | [] => recs
  | rec :: rest => save_loop now (S i) (step (now i) recs url rec) url rest
  end.

(** [save_recommendations] *)
Definition save_recommendations (now : nat -> DateTime)
    (recs : list Recommendation) (url : string)
    (recommendations : list Issue) : list Recommendation :=
  save_loop now 0 recs url recommendations.

(** [update_recommendation_status] *)
Definition update_recommendation_status (clk : Clock)
    (recs : list Recommendation) (id : Z) (new_status : string)
    (new_notes : option string) : list Recommendation :=
  map (fun r =>
         if (rec_id r =? id)%Z then
           {| rec_id := rec_id r; rec_url := rec_url r;
              creation_date := creation_date r; rec_type := rec_type r;
              rec_description := rec_description r; priority := priority r;
              points_potential := points_potential r;
              status := new_status;
              implementation_date :=
                if String.eqb new_status "implemented"
                then Some (datetime_now clk) else None;
              notes := new_notes |}
         else r) recs.

(** [ORDER BY]: the rows in the order of the keys, rows with equal keys
    in the order the table holds them. *)
Section OrderBy.
Context {A : Type} (leb : A -> A -> bool).

Fixpoint insert_row (x : A) (l : list A) : list A :=
  match l with
  | [] => [x]
  | y :: l' => if leb x y then x :: l else y :: insert_row x l'
  end.

Fixpoint order_by (l : list A) : list A :=
  match l with
  | [] => []
  | x :: l' => insert_row x (order_by l')
  end.
End OrderBy.

(** [ORDER BY priority DESC, points_potential DESC] *)
Definition priority_desc_points_desc (a b : Recommendation) : bool :=
  (priority b <? priority a) ||
  ((priority a =? priority b) && (points_potential b <=? points_potential a)).

(** [get_historical_data]: the two data frames.  The rows are kept whole;
    the queries project them on the columns they select. *)
Definition get_historical_data (scans : list ScanRecord)
    (recs : list Recommendation) (url : string)
  : list ScanRecord * list Recommendation :=
  let df_scans :=
    order_by (fun a b => date_leb (scan_date a) (scan_date b))
             (filter (fun r => String.eqb (scan_url r) url) scans) in
  let df_recs :=
    order_by priority_desc_points_desc
             (filter (fun r => String.eqb (rec_url r) url) recs) in
  (df_scans, df_recs).

(** The order the specification asks of the recommendations: a lower
    priority number is more urgent and comes first; among equal
    priorities the higher potential comes first. *)
Definition urgent_first (a b : Recommendation) : Prop :=
  priority a < priority b \/
  (priority a = priority b /\ points_potential b <= points_potential a).

(** The order of the dashboard,
    [sort_values(["priority", "points_potential"], ascending=[True, False])]. *)
Definition priority_asc_points_desc (a b : Recommendation) : bool :=
  (priority a <? priority b) ||
  ((priority a =? priority b) && (points_potential b <=? points_potential a)).

(** Invariant of the [recommendations] table. *)
Definition at_most_one_pending (recs : list Recommendation) : Prop :=
  forall url type, (count_pending recs url type <= 1)%nat.

End History.

(* ===================================================================== *)
(** ** Sample inputs *)
(* ===================================================================== *)

Module Samples.
Import Html.

(** A page whose only image carries an empty [alt]. *)
Definition page_empty_alt : Soup :=
  [ mkTag "img" [("src", "/logo.png"); ("alt", "")] None ].

(** A page with a title and one described image. *)
Definition page_titled : Soup :=
  [ mkTag "title" [] (Some "Recipes");
    mkTag "img" [("src", "/pasta.jpg"); ("alt", "Fresh pasta")] None ].

(** A server that answers every request with the same page. *)
Definition serve (page : Soup) : Web :=
  {| requests_get := fun _ => Py.ret (mkResponse "<html>");
     requests_get_stream := fun _ => Py.ret (mkResponse "<html>");
     BeautifulSoup := fun _ => Py.ret page;
     requests_head_length := fun _ => Py.ret 1024 |}.

(** A module scope that binds no [link], as that of [api.py]. *)
Definition module_globals : Extract.Globals := fun _ => None.

Definition origin : Extract.UrlLib := fun _ => "https://example.com".

(** First byte after 50 ms, everything done after 100 ms. *)
Definition quick : Extract.Timing :=
  {| Extract.t_start := 0; Extract.t_response := 1 # 20;
     Extract.t_done := 1 # 10 |}.

Definition all_present : Scorer.Metadata :=
  Scorer.mkMetadata (Some "Recipes") "Easy Italian recipes"
                    "Meta description is present.".

Definition with_h1 : Scorer.Headers := Scorer.mkHeaders true false 1 0.

(** A random source that picks the alphabet in turn: the first code is
    [ABCDEFGH], the second [IJKLMNOP]. *)
Definition in_turn : AccessGate.Secrets := fun k => k.

(** One issued, unused code of the usual length. *)
Definition one_unused : AccessGate.Table :=
  [ AccessGate.mkAccessCode 1 "ada@example.com" "ABCDEFGH" false ].

(** Two pending recommendations for one page, of different urgency. *)
Definition rec_title : History.Recommendation :=
  History.mkRec 1 "https://example.com" (History.mkDateTime 1700000000 0)
                "title" "Add a descriptive title tag" 1 10 "pending"
                None None.

Definition rec_faq : History.Recommendation :=
  History.mkRec 2 "https://example.com" (History.mkDateTime 1700000000 5)
                "faq" "Add FAQ schema markup" 3 10 "pending" None None.

Definition score0 : Scorer.ScoreResult :=
  Scorer.calculate_rankscore all_present with_h1 true true true true 85.

(** A host five hours west of Greenwich, and the same host ten seconds
    later. *)
Definition west : History.Clock := History.mkClock 1700000000 0 (-18000).
Definition west_10s_later : History.Clock :=
  History.mkClock 1700000010 0 (-18000).

(** A host two hours east of Greenwich, and the same host an hour
    later. *)
Definition east : History.Clock := History.mkClock 1700000000 0 7200.
Definition east_1h_later : History.Clock :=
  History.mkClock 1700003600 0 7200.

End Samples.

(* ===================================================================== *)
(** ** The remaining signal extractors *)
(* ===================================================================== *)

Module Signals.
Import Html.

(** [analyze_headers] *)
Definition analyze_headers (soup : Soup) : Scorer.Headers :=
  let h1_tags := find_all soup "h1" in
  let h2_tags := find_all soup "h2" in
  {| Scorer.h1_present := (0 <? List.length h1_tags)%nat;
     Scorer.h2_present := (0 <? List.length h2_tags)%nat;
     Scorer.h1_count := List.length h1_tags;
     Scorer.h2_count := List.length h2_tags |}.

(** [soup.find_all("script", type="application/ld+json")] *)
Definition ld_json_scripts (soup : Soup) : list Tag :=
  find_all_eq soup "script" "type" "application/ld+json".

(** [analyze_structured_data] *)
Definition analyze_structured_data (soup : Soup) : bool :=
  (0 <? List.length (ld_json_scripts soup))%nat.

(** [needle in text] *)
Definition contains (needle text : string) : bool :=
  match String.index 0 needle text with
  | Some _ => true
  | None => false
  end.

(** [lambda text: text and "FAQPage" in text], applied to the element's
    [.string], which is a string or [None]. *)
Definition mentions_FAQPage (t : Tag) : bool :=
  match text t with
  | Some s => negb (String.eqb s "") && contains "FAQPage" s
  | None => false
  end.

(** [analyze_faq]: [soup.find(...) is not None]. *)
Definition analyze_faq (soup : Soup) : bool :=
  match filter mentions_FAQPage (ld_json_scripts soup) with
  | [] => false
  | _ :: _ => true
  end.

(** [analyze_mobile_friendly] *)
Definition analyze_mobile_friendly (soup : Soup) : bool :=
  match find_all_eq soup "meta" "name" "viewport" with
  | [] => false
  | _ :: _ => true
  end.

(** [soup.find("meta", attrs={"name": "description"})] *)
Definition find_description (soup : Soup) : option Tag :=
  match find_all_eq soup "meta" "name" "description" with
  | [] => None
  | t :: _ => Some t
  end.

(** [analyze_metadata].  A [Tag] is truthy, so [description["content"]] is
    looked up whenever the element was found, and raises [KeyError] when
    the element has no such attribute. *)
Definition analyze_metadata (w : Web) (url : string) : Scorer.Metadata :=
  Py.try_except
    (response <- requests_get w url ;;
     soup <- BeautifulSoup w (response_text response) ;;
     let title :=
       match Html.title soup with
       | Some t => text t
       | None => Some "Missing"
       end in
     description <-
       match find_description soup with
       | Some d => getitem d "content"
       | None => Py.ret "Missing"
       end ;;
     let recommendation :=
       if String.eqb description "Missing"
       then "Consider adding a meta description to improve visibility and SEO."
       else "Meta description is present." in
     Py.ret {| Scorer.title := title;
               Scorer.description := description;
               Scorer.recommendation := recommendation |})%py
    (fun e =>
       {| Scorer.title := Some "Error";
          Scorer.description :=
            String.append "Error fetching metadata: " (Extract.str_of_exn e);
          Scorer.recommendation := "N/A" |}).

End Signals.

(* ===================================================================== *)
(** ** Recommendation engine *)
(* ===================================================================== *)

Module QuickWins.

Record Issue : Type := mkIssue {
  type : string;
  priority : Z;
  effort : string;
  fix_ : string;   (* the key [fix] *)
  example : string
}.

(** [x == "Missing"] for [x] a string or [None]. *)
Definition eq_Missing (x : option string) : bool :=
  match x with
  | Some s => String.eqb s "Missing"
  | None => false
  end.

(** [if c: issues.append(x)] *)
Definition when (c : bool) (x : Issue) : list Issue :=
  if c then [x] else [].

(** The issues in the order [prioritize_quick_wins] appends them.  The
    two HTML examples are written here with single quotes around the
    attribute values, where the source has double quotes. *)
Definition found (metadata : Scorer.Metadata) (headers : Scorer.Headers)
    (structured_data faq_present mobile_friendly accessibility : bool)
    (speed_metrics : Extract.Metrics) : list Issue :=
  when (eq_Missing (Scorer.title metadata))
       (mkIssue "title" 1 "Low" "Add a descriptive title tag"
                "Best Italian Recipes | Easy Guide") ++
  when (eq_Missing (Some (Scorer.description metadata)))
       (mkIssue "description" 2 "Low" "Add a meta description"
                "Discover easy Italian recipes...") ++
  when (negb (Scorer.h1_present headers))
       (mkIssue "h1" 1 "Low" "Add an H1 header"
                "Welcome to Italian Recipes") ++
  when (negb structured_data)
       (mkIssue "structured_data" 3 "Medium" "Implement structured data"
                "Add Recipe schema markup...") ++
  when (negb faq_present)
       (mkIssue "faq" 3 "Medium" "Add FAQ schema markup"
                "Include FAQs with schema...") ++
  when (negb mobile_friendly)
       (mkIssue "mobile" 2 "Medium" "Implement responsive design"
                "<meta name='viewport' content='width=device-width'>") ++
  when (negb accessibility)
       (mkIssue "accessibility" 2 "Low" "Add image alt text"
                "<img src='pasta.jpg' alt='Fresh pasta'>") ++
  when (Extract.Qgtb (Extract.time_to_first_byte speed_metrics)
                     (inject_Z 200))
       (mkIssue "speed" 1 "Medium" "Improve server response"
                "Optimize server config...") ++
  when (5000000 <? Extract.total_size speed_metrics)
       (mkIssue "speed" 2 "Medium" "Reduce page size" "Compress images...") ++
  when (50 <? Extract.resource_count speed_metrics)
       (mkIssue "speed" 2 "Medium" "Reduce requests" "Combine CSS files...").

(** The sort key [(x["priority"], 0 if x["effort"] == "Low" else 1)]. *)
Definition effort_rank (x : Issue) : Z :=
  if String.eqb (effort x) "Low" then 0 else 1.

(** Tuples compare lexicographically. *)
Definition key_leb (a b : Issue) : bool :=
  (priority a <? priority b) ||
  ((priority a =? priority b) && (effort_rank a <=? effort_rank b)).

(** The same order as a relation. *)
Definition key_le (a b : Issue) : Prop :=
  priority a < priority b \/
  (priority a = priority b /\ effort_rank a <= effort_rank b).

(** [prioritize_quick_wins]: [sorted] is stable, as [History.order_by]. *)
Definition prioritize_quick_wins (metadata : Scorer.Metadata)
    (headers : Scorer.Headers)
    (structured_data faq_present mobile_friendly accessibility : bool)
    (speed_metrics : Extract.Metrics) : list Issue :=
  History.order_by key_leb
    (found metadata headers structured_data faq_present mobile_friendly
           accessibility speed_metrics).

(** How many of the issues have a given type. *)
Definition count_type (t : string) (issues : list Issue) : nat :=
  List.length (filter (fun x => String.eqb (type x) t) issues).

End QuickWins.

(* ===================================================================== *)
(** ** Progress summary *)
(* ===================================================================== *)

Module Progress.
Import History.

Record Summary : Type := mkSummary {
  initial_score : Z;
  current_score : Z;
  total_improvement : Z;
  scan_count : nat;
  implemented_changes : nat;
  pending_changes : nat;
  implementation_impact : Z;
  trending_data : list ScanRecord;
  recommendations : list Recommendation
}.

(** [df[df["status"] == s]] *)
Definition with_status (s : string) (df : list Recommendation)
  : list Recommendation :=
  filter (fun r => String.eqb (status r) s) df.

(** [df["points_potential"].sum()] *)
Definition sum_points (df : list Recommendation) : Z :=
  fold_right Z.add 0 (map points_potential df).

(** [get_progress_summary]; [None] is Python's [None]. *)
Definition get_progress_summary (scans : list ScanRecord)
    (recs : list Recommendation) (url : string) : option Summary :=
  let (df_scans, df_recs) := get_historical_data scans recs url in
  match df_scans with
  | [] => None
  | first_scan :: _ =>
      let latest_scan := List.last df_scans first_scan in
      let implemented_recs := with_status "implemented" df_recs in
      Some {| initial_score := scan_total_score first_scan;
              current_score := scan_total_score latest_scan;
              total_improvement :=
                scan_total_score latest_scan - scan_total_score first_scan;
              scan_count := List.length df_scans;
              implemented_changes := List.length implemented_recs;
              pending_changes := List.length (with_status "pending" df_recs);
              implementation_impact := sum_points implemented_recs;
              trending_data := df_scans;
              recommendations := df_recs |}
  end.

End Progress.

(* ===================================================================== *)
(** ** The application: login and full analysis *)
(* ===================================================================== *)

Module App.

(** What the sidebar block of [main] leaves behind: the session flag, the
    table, and the exception that ended the run, if any. *)
Record LoginResult : Type := mkLogin {
  pro_unlocked : bool;
  table : AccessGate.Table;
  raised : option Py.exn
}.

(** The block
<<
    if user_code and not st.session_state["pro_unlocked"]:
        valid_code = validate_access_code(user_code)
        if valid_code:
            st.session_state["pro_unlocked"] = True
            mark_code_as_used(user_code)
>>
    The flag is set before [mark_code_as_used] runs. *)
Definition login (db : AccessGate.Table) (unlocked : bool)
    (user_code : string) : LoginResult :=
  if negb (String.eqb user_code "") && negb unlocked then
    match AccessGate.validate_access_code db user_code with
    | inl e => mkLogin unlocked db (Some e)
    | inr None => mkLogin unlocked db None
    | inr (Some _) =>
        match AccessGate.mark_code_as_used db user_code with
        | inl e => mkLogin true db (Some e)
        | inr db' => mkLogin true db' None
        end
    end
  else mkLogin unlocked db None.

(** The values that the "Analyze Full AEO" branch of [main] computes. *)
Record Analysis : Type := mkAnalysis {
  metadata : Scorer.Metadata;
  headers : Scorer.Headers;
  structured_data : bool;
  faq_present : bool;
  mobile_friendly : bool;
  accessibility : bool;
  speed_metrics : Extract.Metrics;
  score_data : Scorer.ScoreResult;
  top_issues : list QuickWins.Issue
}.

(** The branch up to [top_issues].  It reaches the server three times: its
    own [requests.get], the one of [analyze_metadata] and the one of
    [analyze_page_speed]; [w], [w_meta] and [w_speed] are the server as each
    of them finds it.  The first request is outside any [try]. *)
Definition analyze_full (w w_meta w_speed : Web) (g : Extract.Globals)
    (base_url : Extract.UrlLib) (clk : Extract.Timing) (url : string)
  : Py.result Analysis :=
  (response <- requests_get w url ;;
   soup <- BeautifulSoup w (response_text response) ;;
   let metadata := Signals.analyze_metadata w_meta url in
   let headers := Signals.analyze_headers soup in
   let structured_data := Signals.analyze_structured_data soup in
   let faq_present := Signals.analyze_faq soup in
   let mobile_friendly := Signals.analyze_mobile_friendly soup in
   let accessibility := Extract.analyze_accessibility soup in
   let speed_metrics :=
     Extract.analyze_page_speed w_speed g base_url clk url in
   let score_data :=
     Scorer.calculate_rankscore metadata headers structured_data faq_present
       mobile_friendly accessibility
       (Extract.performance_score speed_metrics) in
   let top_issues :=
     QuickWins.prioritize_quick_wins metadata headers structured_data
       faq_present mobile_friendly accessibility speed_metrics in
   Py.ret (mkAnalysis metadata headers structured_data faq_present
                      mobile_friendly accessibility speed_metrics
                      score_data top_issues))%py.

(** [{"type": i["type"], "message": i["fix"], "priority": i["priority"],
     "points_available": 10} for i in top_issues[:3]] *)
Definition to_recommendations (top_issues : list QuickWins.Issue)
  : list History.Issue :=
  map (fun i => History.mkIssue (QuickWins.type i) (QuickWins.fix_ i)
                                (QuickWins.priority i) 10)
      (firstn 3 top_issues).

(** The two writes that end the branch. *)
Definition store_analysis (clk : History.Clock)
    (now : nat -> History.DateTime)
    (scans : list History.ScanRecord) (recs : list History.Recommendation)
    (url : string) (a : Analysis)
  : list History.ScanRecord * list History.Recommendation :=
  (History.save_scan_results clk scans url (score_data a)
     (structured_data a) (faq_present a) (mobile_friendly a)
     (Extract.performance_score (speed_metrics a)),
   History.save_recommendations now recs url
     (to_recommendations (top_issues a))).

(** The issue list of the Lite report:
    [prioritize_quick_wins(analyze_metadata(url), analyze_headers(soup),
     False, False, False, False, analyze_page_speed(url))]. *)
Definition lite_issues (w_meta w_speed : Web) (g : Extract.Globals)
    (base_url : Extract.UrlLib) (clk : Extract.Timing) (url : string)
    (soup : Html.Soup) : list QuickWins.Issue :=
  QuickWins.prioritize_quick_wins
    (Signals.analyze_metadata w_meta url) (Signals.analyze_headers soup)
    false false false false
    (Extract.analyze_page_speed w_speed g base_url clk url).

End App.

(* ===================================================================== *)
(** ** The Flask service ([api (2).py]) *)
(* ===================================================================== *)

Module FlaskApi.

(** A dictionary of scores. *)
Definition Scores : Type := list (string * Z).

(** The placeholders. *)
Definition analyze_metadata (url : string) : Scores := [("meta_score", 90)].
Definition analyze_headers (soup : Html.Soup) : Scores :=
  [("header_score", 80)].
Definition analyze_structured_data (soup : Html.Soup) : Scores :=
  [("structured_score", 70)].
Definition analyze_faq (soup : Html.Soup) : Scores := [("faq_score", 100)].
Definition analyze_mobile_friendly (soup : Html.Soup) : Scores :=
  [("mobile_score", 90)].
Definition analyze_accessibility (soup : Html.Soup) : Scores :=
  [("accessibility_score", 85)].
Definition analyze_page_speed (url : string) : Scores :=
  [("speed_score", 88)].

(** [sum(value for score_dict in args for value in score_dict.values())] *)
Definition sum_values (args : list Scores) : Z :=
  fold_right Z.add 0 (map snd (concat args)).

(** [calculate_rankscore( *args)]: the sum of all values over the number of
    dictionaries, rounded to two places; [None] stands for the
    [ZeroDivisionError] of a call without arguments. *)
Definition calculate_rankscore (args : list Scores) : option Q :=
  match args with
  | [] => None
  | _ :: _ =>
      Some (Extract.round2
              (inject_Z (sum_values args)
               / inject_Z (Z.of_nat (List.length args)))%Q)
  end.

(** [d[k] = v] *)
Fixpoint dict_set (d : Scores) (k : string) (v : Z) : Scores :=
  match d with
  | [] => [(k, v)]
  | (k', v') :: rest =>
      if String.eqb k' k then (k', v) :: rest else (k', v') :: dict_set rest k v
  end.

(** [{**a, **b, ...}] *)
Definition merge (dicts : list Scores) : Scores :=
  fold_left (fun acc d => fold_left (fun acc' kv => dict_set acc' (fst kv) (snd kv)) d acc)
            dicts [].

Inductive Body : Type :=
| Error (message : string)
| Result (url : string) (score : Q) (components : Scores).

(** [jsonify(body), status] *)
Record HttpResponse : Type := mkHttp {
  status : Z;
  body : Body
}.

(** [data.get("url")] on the posted JSON object. *)
Fixpoint get (data : list (string * string)) (key : string) : option string :=
  match data with
  | [] => None
  | (k, v) :: rest => if String.eqb k key then Some v else get rest key
  end.

(** [not url] for a string or [None]. *)
Definition falsy (x : option string) : bool :=
  match x with
  | Some s => String.eqb s ""
  | None => true
  end.

(** The [/analyze] endpoint. *)
Definition analyze (w : Web) (data : list (string * string)) : HttpResponse :=
  let url := get data "url" in
  match url with
  | None => mkHttp 400 (Error "URL is required")
  | Some u =>
      if falsy url then mkHttp 400 (Error "URL is required")
      else
        Py.try_except
          (response <- requests_get w u ;;
           soup <- BeautifulSoup w (response_text response) ;;
           let metadata := analyze_metadata u in
           let headers := analyze_headers soup in
           let structured_data := analyze_structured_data soup in
           let faq_present := analyze_faq soup in
           let mobile_friendly := analyze_mobile_friendly soup in
           let accessibility := analyze_accessibility soup in
           let speed_metrics := analyze_page_speed u in
           let parts := [metadata; headers; structured_data; faq_present;
                         mobile_friendly; accessibility; speed_metrics] in
           match calculate_rankscore parts with
           | None => Py.raise (Py.TypeError "division by zero")
           | Some final_score =>
               Py.ret (mkHttp 200 (Result u final_score (merge parts)))
           end)%py
          (fun e =>
             mkHttp 500
               (Error (String.append "Failed to analyze: "
                                     (Extract.str_of_exn e))))
  end.

End FlaskApi.

(* ===================================================================== *)
(** ** More sample inputs *)
(* ===================================================================== *)

Module MoreSamples.
Import Html.

(** A page with FAQ markup and nothing else. *)
Definition page_faq : Soup :=
  [ mkTag "script" [("type", "application/ld+json")]
          (Some "{'@type': 'FAQPage'}") ].

(** A server that cannot be reached. *)
Definition unreachable : Web :=
  {| requests_get := fun _ => Py.raise (Py.RequestException "timed out");
     requests_get_stream :=
       fun _ => Py.raise (Py.RequestException "timed out");
     BeautifulSoup := fun _ => Py.ret [];
     requests_head_length := fun _ => Py.ret 0 |}.

(** Metadata without a title. *)
Definition untitled : Scorer.Metadata :=
  Scorer.mkMetadata (Some "Missing") "Easy Italian recipes"
                    "Meta description is present.".

(** The full analysis of the titled sample page. *)
Definition analysis0 : App.Analysis :=
  let speed := Extract.fallback (Py.NameError "link") in
  App.mkAnalysis Samples.all_present Samples.with_h1 false false false true
    speed
    (Scorer.calculate_rankscore Samples.all_present Samples.with_h1
                                false false false true 0)
    (QuickWins.prioritize_quick_wins Samples.all_present Samples.with_h1
                                     false false false true speed).

(** What the full analysis of the titled sample page returns. *)
Definition analysis_titled : App.Analysis :=
  match App.analyze_full (Samples.serve Samples.page_titled)
          (Samples.serve Samples.page_titled)
          (Samples.serve Samples.page_titled)
          Samples.module_globals Samples.origin Samples.quick
          "https://example.com" with
  | inr a => a
  | inl _ => analysis0
  end.

(** A posted JSON object. *)
Definition post_url : list (string * string) :=
  [("url", "https://example.com")].

End MoreSamples.

(* ===================================================================== *)
(** * Properties *)
(* ===================================================================== *)

(** ** Scorer *)

Section ScorerFacts.
Import Scorer.

Lemma points_bounds (w : Z) (b : bool) : 0 <= w -> 0 <= points w b <= w.
Proof. destruct b; simpl; lia. Qed.

(** C1.  For every input, the total returned by [calculate_rankscore] is
    the sum of its eight component scores, each component is its fixed
    allocation (25, 20, 15, 10, 10, 8, 7, 5) when its signal holds and 0
    otherwise, the total stays between 0 and 100, and it is exactly 100
    when every signal is positive. *)
Theorem calculate_rankscore_total
    (metadata : Metadata) (headers : Headers)
    (structured_data faq_present mobile_friendly accessibility : bool)
    (performance_score : Z) :
  let r := calculate_rankscore metadata headers structured_data faq_present
                               mobile_friendly accessibility
                               performance_score in
  let c := component_scores r in
  total_score r = sum_components c /\
  (c_structured_data c = points 25 structured_data /\
   c_faq c = points 20 faq_present /\
   c_headers c = points 15 (h1_present headers) /\
   c_title c = points 10 (neq_Missing (title metadata)) /\
   c_speed c = points 10 (80 <=? performance_score) /\
   c_description c = points 8 (neq_Missing (Some (description metadata))) /\
   c_mobile c = points 7 mobile_friendly /\
   c_accessibility c = points 5 accessibility) /\
  0 <= total_score r <= 100 /\
  (structured_data = true -> faq_present = true ->
   h1_present headers = true -> title metadata <> Some "Missing" ->
   80 <= performance_score -> description metadata <> "Missing" ->
   mobile_friendly = true -> accessibility = true ->
   total_score r = 100).
Proof.
  cbv zeta. split; [reflexivity|]. split; [repeat split|]. split.
  - unfold calculate_rankscore; cbn [total_score].
    pose proof (points_bounds 25 structured_data).
    pose proof (points_bounds 20 faq_present).
    pose proof (points_bounds 15 (h1_present headers)).
    pose proof (points_bounds 10 (neq_Missing (title metadata))).
    pose proof (points_bounds 10 (80 <=? performance_score)).
    pose proof (points_bounds 8 (neq_Missing (Some (description metadata)))).
    pose proof (points_bounds 7 mobile_friendly).
    pose proof (points_bounds 5 accessibility).
    unfold points in *. lia.
  - intros -> -> Hh1 Ht Hp Hd -> ->.
    unfold calculate_rankscore; cbn [total_score].
    rewrite Hh1.
    apply Z.leb_le in Hp. rewrite Hp.
    assert (neq_Missing (title metadata) = true) as ->.
    { destruct (title metadata) as [s|]; [|reflexivity]. simpl.
      destruct (String.eqb_spec s "Missing"); [congruence|reflexivity]. }
    assert (neq_Missing (Some (description metadata)) = true) as ->.
    { simpl. destruct (String.eqb_spec (description metadata) "Missing");
        [contradiction|reflexivity]. }
    reflexivity.
Qed.

Lemma calculate_rankscore_total_witness :
  total_score (calculate_rankscore Samples.all_present Samples.with_h1
                                   true true true true 85) = 100.
Proof.
  destruct (calculate_rankscore_total Samples.all_present Samples.with_h1
                                      true true true true 85)
    as (_ & _ & _ & H).
  apply H; first [reflexivity | lia | discriminate].
Defined.

End ScorerFacts.

(** ** Signal extractors *)

Section ExtractFacts.
Import Html Extract.

Lemma filter_all_length {A : Type} (f : A -> bool) (l : list A) :
  List.length (filter f l) = List.length l <-> forallb f l = true.
Proof.
  induction l as [|a l IH]; simpl.
  - tauto.
  - destruct (f a); simpl.
    + rewrite <- IH. split; intro H; [injection H; auto | now f_equal].
    + pose proof (filter_length_le f l). split; [lia | discriminate].
Qed.

(** C6, as the code has it.  The accessibility signal is true if and only
    if every image element carries an [alt] attribute, whatever its value;
    with no image at all it is true. *)
Theorem analyze_accessibility_every_image_has_alt (soup : Soup) :
  (analyze_accessibility soup = true <->
   forall img, In img (find_all soup "img") -> has_attr img "alt" = true) /\
  (find_all soup "img" = [] -> analyze_accessibility soup = true).
Proof.
  unfold analyze_accessibility. split.
  - rewrite Nat.eqb_eq, filter_all_length, forallb_forall. tauto.
  - intros ->. reflexivity.
Qed.

Lemma analyze_accessibility_every_image_has_alt_witness :
  analyze_accessibility [mkTag "title" [] (Some "Recipes")] = true.
Proof.
  apply (analyze_accessibility_every_image_has_alt
           [mkTag "title" [] (Some "Recipes")]).
  reflexivity.
Defined.

(** C6, as stated, fails: one image with an empty [alt] counts as
    described for the code, while the count of non-empty [alt] texts (0)
    differs from the count of images (1). *)
Lemma analyze_accessibility_empty_alt :
  analyze_accessibility Samples.page_empty_alt = true /\
  spec_accessibility Samples.page_empty_alt = false.
Proof. split; reflexivity. Qed.

(** C10.  The Lite score is 0 when the fetch or the parse raises, 65 when
    the parsed page has a title element and 50 when it has none; nothing
    else enters it. *)
Theorem analyze_lite_aeo_three_values (w : Web) (url : string) :
  (forall e, requests_get w url = inl e -> analyze_lite_aeo w url = 0) /\
  (forall resp e, requests_get w url = inr resp ->
     BeautifulSoup w (response_text resp) = inl e ->
     analyze_lite_aeo w url = 0) /\
  (forall resp soup, requests_get w url = inr resp ->
     BeautifulSoup w (response_text resp) = inr soup ->
     find_all soup "title" <> [] -> analyze_lite_aeo w url = 65) /\
  (forall resp soup, requests_get w url = inr resp ->
     BeautifulSoup w (response_text resp) = inr soup ->
     find_all soup "title" = [] -> analyze_lite_aeo w url = 50) /\
  (analyze_lite_aeo w url = 65 \/ analyze_lite_aeo w url = 50 \/
   analyze_lite_aeo w url = 0).
Proof.
  unfold analyze_lite_aeo, Html.title. repeat apply conj.
  - intros e H. rewrite H. reflexivity.
  - intros resp e H1 H2. rewrite H1. simpl. rewrite H2. reflexivity.
  - intros resp soup H1 H2 H3. rewrite H1. simpl. rewrite H2. simpl.
    destruct (find_all soup "title"); [contradiction|reflexivity].
  - intros resp soup H1 H2 H3. rewrite H1. simpl. rewrite H2. simpl.
    rewrite H3. reflexivity.
  - destruct (requests_get w url) as [e|resp]; simpl; auto.
    destruct (BeautifulSoup w (response_text resp)) as [e|soup]; simpl; auto.
    destruct (find_all soup "title"); simpl; auto.
Qed.

Lemma analyze_lite_aeo_three_values_witness :
  analyze_lite_aeo (Samples.serve Samples.page_titled) "https://example.com"
  = 65.
Proof.
  destruct (analyze_lite_aeo_three_values
              (Samples.serve Samples.page_titled) "https://example.com")
    as (_ & _ & H & _).
  apply (H (mkResponse "<html>") Samples.page_titled);
    [reflexivity | reflexivity | discriminate].
Defined.

End ExtractFacts.

(** ** Page speed *)

Section SpeedFacts.
Import Html Extract.

(** The first iterable of the comprehension never evaluates: either no
    scope binds [link], or the lookup [link["href"]] fails, or a tuple
    is added to the list of script elements. *)
Lemma discover_resources_raises (g : Globals) (soup : Soup) :
  exists e, discover_resources g soup = inl e.
Proof.
  unfold discover_resources, load_global.
  destruct (g "link") as [v|]; simpl; [|eauto].
  destruct v; simpl; eauto.
  - unfold getitem. destruct (get_attr (attrs t) "href"); simpl; eauto.
  - destruct (dict_get d "href"); simpl; eauto.
Qed.

(** With no [link] among the globals, the exception is the [NameError]. *)
Lemma discover_resources_NameError (g : Globals) (soup : Soup) :
  g "link" = None ->
  discover_resources g soup = inl (Py.NameError "link").
Proof.
  intros H. unfold discover_resources, load_global. rewrite H. reflexivity.
Qed.

Lemma analyze_page_speed_fallback (w : Web) (g : Globals)
    (base_url : UrlLib) (clk : Timing) (url : string) :
  exists e, analyze_page_speed w g base_url clk url = fallback e.
Proof.
  unfold analyze_page_speed.
  destruct (requests_get_stream w url) as [e|response]; simpl; [eauto|].
  destruct (BeautifulSoup w (response_text response)) as [e|soup]; simpl;
    [eauto|].
  destruct (discover_resources_raises g soup) as [e He].
  rewrite He. simpl. eauto.
Qed.

(** The penalty rule itself is the rule of the specification. *)
Lemma score_rule_spec (ttfb total : Q) (count size : Z) :
  score_rule ttfb total count size =
  spec_performance_score ttfb total count size.
Proof.
  unfold score_rule, spec_performance_score, fires.
  destruct (Qgtb ttfb (inject_Z 200)), (Qgtb total (inject_Z 3000)),
           (50 <? count), (5000000 <? size); reflexivity.
Qed.

(** C9.  Whatever the url, the server, the module scope and the clock,
    [analyze_page_speed] returns the record of its [except] branch: a
    performance score of 0 and every timing, size and count at 0, with no
    resource type recorded.  The cause is the resource comprehension,
    which raises on every document. *)
Theorem analyze_page_speed_always_fallback (w : Web) (g : Globals)
    (base_url : UrlLib) (clk : Timing) (url : string) :
  let m := analyze_page_speed w g base_url clk url in
  (exists e, m = fallback e) /\
  performance_score m = 0 /\
  total_time m = 0%Q /\ time_to_first_byte m = 0%Q /\
  resource_count m = 0 /\ total_size m = 0 /\ resource_types m = [] /\
  (forall soup, exists e, discover_resources g soup = inl e).
Proof.
  cbv zeta.
  destruct (analyze_page_speed_fallback w g base_url clk url) as [e ->].
  repeat apply conj; try reflexivity.
  - eauto.
  - intros soup. apply discover_resources_raises.
Qed.

(** C3 at a failing input.  The page answers after 50 ms and is complete
    after 100 ms, so no threshold fires and the
    specification's rule gives 100, on the observed measures as well as
    on those of the returned record; the function returns 0. *)
Theorem analyze_page_speed_score_lost :
  let m := analyze_page_speed (Samples.serve Samples.page_titled)
                              Samples.module_globals Samples.origin
                              Samples.quick "https://example.com" in
  performance_score m = 0 /\
  spec_performance_score
    (round2 ((1 # 20) * inject_Z 1000)) (round2 ((1 # 10) * inject_Z 1000))
    1 1024 = 100 /\
  spec_performance_score (time_to_first_byte m) (total_time m)
                         (resource_count m) (total_size m) = 100.
Proof. cbv zeta. repeat apply conj; vm_compute; reflexivity. Qed.

End SpeedFacts.

(** ** Access gate *)

Section AccessGateFacts.
Import AccessGate.

Lemma bind1_tuple1 (x : string) : bind1 (tuple1 x) = inr x.
Proof. reflexivity. Qed.

Lemma bind1_str_long (x : string) :
  String.length x <> 1%nat ->
  bind1 (str_as_sequence x) = inl (Py.ProgrammingError 1 (String.length x)).
Proof.
  assert (L : forall s, List.length (str_as_sequence s) = String.length s).
  { induction s; simpl; auto. }
  intros H. rewrite <- L.
  destruct x as [|c [|c' x']]; simpl in *; try reflexivity.
  contradiction.
Qed.

(** Every generated code has eight characters. *)
Lemma generate_unique_code_length (rng : Secrets) (k : nat) :
  String.length (fst (generate_unique_code rng k)) = 8%nat.
Proof. reflexivity. Qed.

(** So the update raises on every issued code, and on any other code that
    is not a single character. *)
Lemma mark_code_as_used_raises (db : Table) (x : string) :
  String.length x <> 1%nat ->
  mark_code_as_used db x = inl (Py.ProgrammingError 1 (String.length x)).
Proof.
  intros H. unfold mark_code_as_used. now rewrite bind1_str_long.
Qed.

Lemma mark_code_as_used_issued (db : Table) (rng : Secrets) (k : nat) :
  mark_code_as_used db (fst (generate_unique_code rng k))
  = inl (Py.ProgrammingError 1 8).
Proof.
  rewrite mark_code_as_used_raises;
    rewrite generate_unique_code_length; [reflexivity|discriminate].
Qed.

End AccessGateFacts.

Section AccessGateClaims.
Import AccessGate.

(** What [validate_access_code] answers: no row for a code whose rows are
    all used, and otherwise an unused row of that code. *)
Lemma validate_access_code_unused (db : Table) (user_code : string) :
  ((forall r, In r db -> code r = user_code -> used r = true) ->
   validate_access_code db user_code = inr None) /\
  (forall row, validate_access_code db user_code = inr (Some row) ->
     In row db /\ code row = user_code /\ used row = false).
Proof.
  split.
  - intros H. unfold validate_access_code. rewrite bind1_tuple1. simpl.
    f_equal.
    destruct (find _ db) as [r|] eqn:F; [|reflexivity].
    apply find_some in F. destruct F as [Hin Hb].
    apply andb_true_iff in Hb. destruct Hb as [Hc Hu].
    apply String.eqb_eq in Hc. rewrite (H r Hin Hc) in Hu. discriminate.
  - intros row H. unfold validate_access_code in H.
    rewrite bind1_tuple1 in H. simpl in H. injection H as H.
    apply find_some in H. destruct H as [Hin Hb].
    apply andb_true_iff in Hb. destruct Hb as [Hc Hu].
    apply String.eqb_eq in Hc. apply negb_true_iff in Hu. auto.
Qed.

(** C2 at a failing input.  The table holds the issued code [ABCDEFGH],
    unused.  [validate_access_code] finds its row, and then
    [mark_code_as_used] raises: its parameters are [(user_code)], the
    string itself, so the statement with one placeholder is handed eight
    values.  No row is updated, the flag of the code is still unset, and
    the code validates again.  The same exception meets every code that
    [generate_unique_code] can produce, in any table. *)
Theorem access_code_never_marked :
  validate_access_code Samples.one_unused "ABCDEFGH"
    = inr (Some (mkAccessCode 1 "ada@example.com" "ABCDEFGH" false)) /\
  mark_code_as_used Samples.one_unused "ABCDEFGH"
    = inl (Py.ProgrammingError 1 8) /\
  used_flags Samples.one_unused "ABCDEFGH" = [false] /\
  (forall (db : Table) (rng : Secrets) (k : nat),
     mark_code_as_used db (fst (generate_unique_code rng k))
     = inl (Py.ProgrammingError 1 8)).
Proof.
  repeat apply conj; [reflexivity|reflexivity|reflexivity|].
  intros db rng k. apply mark_code_as_used_issued.
Qed.

(** With no conflict the first attempt stores the pair and returns. *)
Lemma save_access_code_no_conflict (depth : nat) (rng : Secrets) (k : nat)
    (db : Table) (e : string) :
  email_taken db e = false ->
  code_taken db (attempt rng k 0) = false ->
  save_access_code (S depth) rng k false db e =
  inr (attempt rng k 0,
       db ++ [ {| ac_id := next_id db; email := e;
                  code := attempt rng k 0; used := false |} ]).
Proof.
  intros He Hc. unfold attempt in *.
  rewrite Nat.mul_0_r, Nat.add_0_r in *. simpl in *.
  unfold execute_insert, insert. rewrite He, Hc. reflexivity.
Qed.

(** With a conflict, on the email or on the code, the function regenerates
    and calls itself once; that call finds the database locked. *)
Lemma save_access_code_conflict (depth : nat) (rng : Secrets) (k : nat)
    (db : Table) (e : string) :
  email_taken db e = true \/ code_taken db (attempt rng k 0) = true ->
  save_access_code (S (S depth)) rng k false db e =
  inl (Py.OperationalError "database is locked").
Proof.
  intros H. unfold attempt in H. rewrite Nat.mul_0_r, Nat.add_0_r in H.
  simpl in *. unfold execute_insert, insert.
  destruct (email_taken db e); [reflexivity|].
  destruct H as [H|H]; [discriminate|]. rewrite H. reflexivity.
Qed.

(** Two frames are all the function ever needs. *)
Lemma save_access_code_terminates (depth : nat) (rng : Secrets) (k : nat)
    (db : Table) (e : string) :
  save_access_code (S (S depth)) rng k false db e <> inl Py.RecursionError.
Proof.
  destruct (email_taken db e) eqn:He.
  - rewrite save_access_code_conflict by auto. discriminate.
  - destruct (code_taken db (attempt rng k 0)) eqn:Hc.
    + rewrite save_access_code_conflict by auto. discriminate.
    + rewrite save_access_code_no_conflict by assumption. discriminate.
Qed.

(** C4 at failing inputs.  The table holds the code [ABCDEFGH] for
    ada@example.com and the random source draws [ABCDEFGH] first, then
    [IJKLMNOP].  For a new email the first code collides, and for the stored
    email the email collides; either way the regenerated attempt raises
    [database is locked] and no code is returned.  Without the collision
    the same call returns its code. *)
Theorem save_access_code_conflict_fails :
  save_access_code 1000 Samples.in_turn 0 false Samples.one_unused
                   "bob@example.com"
    = inl (Py.OperationalError "database is locked") /\
  save_access_code 1000 Samples.in_turn 0 false Samples.one_unused
                   "ada@example.com"
    = inl (Py.OperationalError "database is locked") /\
  save_access_code 1000 Samples.in_turn 8 false Samples.one_unused
                   "bob@example.com"
    = inr ("IJKLMNOP",
           Samples.one_unused ++
           [ mkAccessCode 2 "bob@example.com" "IJKLMNOP" false ]).
Proof. repeat apply conj; reflexivity. Qed.

End AccessGateClaims.

(** ** History store *)

Section OrderByFacts.
Context {A : Type} (leb : A -> A -> bool).
Hypothesis leb_total : forall a b, leb a b = true \/ leb b a = true.

Let le (a b : A) : Prop := leb a b = true.

Lemma insert_row_perm (x : A) (l : list A) :
  Permutation (x :: l) (History.insert_row leb x l).
Proof.
  induction l as [|y l IH]; simpl; [apply Permutation_refl|].
  destruct (leb x y); [apply Permutation_refl|].
  eapply perm_trans; [apply perm_swap|]. now apply perm_skip.
Qed.

Lemma order_by_perm (l : list A) : Permutation l (History.order_by leb l).
Proof.
  induction l as [|x l IH]; simpl; [constructor|].
  eapply perm_trans; [apply perm_skip, IH | apply insert_row_perm].
Qed.

Lemma insert_row_hd (a x : A) (l : list A) :
  le a x -> HdRel le a l -> HdRel le a (History.insert_row leb x l).
Proof.
  intros Hax Hl. destruct l as [|y l]; simpl.
  - now constructor.
  - destruct (leb x y); constructor; auto. now inversion Hl.
Qed.

Lemma insert_row_sorted (x : A) (l : list A) :
  Sorted le l -> Sorted le (History.insert_row leb x l).
Proof.
  induction 1 as [|y l Hs IH Hhd]; simpl.
  - repeat constructor.
  - destruct (leb x y) eqn:E.
    + constructor; [now constructor|]. now constructor.
    + constructor; [exact IH|].
      apply insert_row_hd; [|exact Hhd].
      destruct (leb_total x y) as [H|H]; [congruence|exact H].
Qed.

Lemma order_by_sorted (l : list A) : Sorted le (History.order_by leb l).
Proof.
  induction l as [|x l IH]; simpl; [constructor|].
  now apply insert_row_sorted.
Qed.

End OrderByFacts.

Section HistoryFacts.
Import History.

Lemma priority_desc_points_desc_total (a b : Recommendation) :
  priority_desc_points_desc a b = true \/
  priority_desc_points_desc b a = true.
Proof.
  unfold priority_desc_points_desc.
  destruct (Z.ltb_spec (priority b) (priority a)); simpl; [now left|].
  destruct (Z.ltb_spec (priority a) (priority b)); simpl; [now right|].
  assert (priority a = priority b) as E by lia. rewrite E, Z.eqb_refl. simpl.
  destruct (Z.leb_spec (points_potential b) (points_potential a));
    [now left|right]. apply Z.leb_le. lia.
Qed.

(** What [get_historical_data] does guarantee about the recommendations:
    they are those of the url, by descending priority number. *)
Lemma get_historical_data_descending (scans : list ScanRecord)
    (recs : list Recommendation) (url : string) :
  let df_recs := snd (get_historical_data scans recs url) in
  Permutation (filter (fun r => String.eqb (rec_url r) url) recs) df_recs /\
  Sorted (fun a b => priority b <= priority a) df_recs.
Proof.
  cbv zeta. simpl. split; [apply order_by_perm|].
  pose proof (order_by_sorted priority_desc_points_desc
                priority_desc_points_desc_total
                (filter (fun r => String.eqb (rec_url r) url) recs)) as H.
  assert (W : forall a b, priority_desc_points_desc a b = true ->
                          priority b <= priority a).
  { intros a b. unfold priority_desc_points_desc. intros E.
    apply orb_true_iff in E. destruct E as [E|E].
    - apply Z.ltb_lt in E. lia.
    - apply andb_true_iff in E. destruct E as [E _].
      apply Z.eqb_eq in E. lia. }
  induction H as [|a l Hs IH Hhd]; constructor; auto.
  destruct Hhd; constructor; auto.
Qed.

(** C5 at a failing input.  With a priority-1 and a priority-3
    recommendation stored for one url, [get_historical_data] returns the
    priority-3 one first: the less urgent leads, and the result is not in
    the order the claim states.  The dashboard's own sort of the same rows
    puts the priority-1 one first. *)
Theorem get_historical_data_least_urgent_first :
  let df_recs :=
    snd (get_historical_data []
           [Samples.rec_title; Samples.rec_faq] "https://example.com") in
  df_recs = [Samples.rec_faq; Samples.rec_title] /\
  map priority df_recs = [3; 1] /\
  ~ Sorted urgent_first df_recs /\
  order_by priority_asc_points_desc df_recs
    = [Samples.rec_title; Samples.rec_faq].
Proof.
  cbv zeta. repeat apply conj; try reflexivity.
  intros H.
  change (Sorted urgent_first [Samples.rec_faq; Samples.rec_title]) in H.
  inversion H as [|a l Hs Hhd]; subst.
  inversion Hhd as [|b l' Hu]; subst.
  destruct Hu as [Hu|[Hu _]]; simpl in Hu; lia.
Qed.

End HistoryFacts.

Section RecommendationFacts.
Import History.

Lemma count_pending_app (recs : list Recommendation) (r : Recommendation)
    (url type : string) :
  count_pending (recs ++ [r]) url type =
  (count_pending recs url type +
   (if is_pending_for url type r then 1 else 0))%nat.
Proof.
  unfold count_pending. rewrite filter_app, length_app. simpl.
  destruct (is_pending_for url type r); reflexivity.
Qed.

Lemma is_pending_for_new (recs : list Recommendation) (url : string)
    (now : DateTime) (rec : Issue) (u t : string) :
  is_pending_for u t (new_recommendation recs url now rec) =
  String.eqb url u && String.eqb (issue_type rec) t.
Proof. unfold is_pending_for. simpl. now rewrite andb_true_r. Qed.

Lemma save_loop_cons (now : nat -> DateTime) (i : nat)
    (recs : list Recommendation) (url : string) (rec : Issue)
    (rest : list Issue) :
  save_loop now i recs url (rec :: rest) =
  save_loop now (S i) (step (now i) recs url rec) url rest.
Proof. reflexivity. Qed.

Lemma step_count (now : DateTime) (recs : list Recommendation)
    (url : string) (rec : Issue) (u t : string) :
  count_pending (step now recs url rec) u t =
  (count_pending recs u t +
   (if Nat.eqb (count_pending recs url (issue_type rec)) 0 &&
       (String.eqb url u && String.eqb (issue_type rec) t)
    then 1 else 0))%nat.
Proof.
  unfold step.
  destruct (Nat.eqb (count_pending recs url (issue_type rec)) 0); simpl.
  - now rewrite count_pending_app, is_pending_for_new.
  - lia.
Qed.

Lemma step_invariant (now : DateTime) (recs : list Recommendation)
    (url : string) (rec : Issue) :
  at_most_one_pending recs -> at_most_one_pending (step now recs url rec).
Proof.
  intros H u t. rewrite step_count. specialize (H u t).
  destruct (Nat.eqb_spec (count_pending recs url (issue_type rec)) 0)
    as [E|E]; simpl; [|lia].
  destruct (String.eqb_spec url u) as [<-|]; simpl; [|lia].
  destruct (String.eqb_spec (issue_type rec) t) as [<-|]; simpl; lia.
Qed.

Lemma step_covers (now : DateTime) (recs : list Recommendation)
    (url : string) (rec : Issue) :
  (1 <= count_pending (step now recs url rec) url (issue_type rec))%nat.
Proof.
  rewrite step_count, !String.eqb_refl.
  destruct (Nat.eqb_spec (count_pending recs url (issue_type rec)) 0);
    simpl; lia.
Qed.

Lemma save_loop_invariant (now : nat -> DateTime) (issues : list Issue) :
  forall (i : nat) (recs : list Recommendation) (url : string),
    at_most_one_pending recs ->
    at_most_one_pending (save_loop now i recs url issues).
Proof.
  induction issues as [|rec rest IH]; intros i recs url H; [exact H|].
  rewrite save_loop_cons. apply IH. now apply step_invariant.
Qed.

Lemma save_loop_mono (now : nat -> DateTime) (issues : list Issue) :
  forall (i : nat) (recs : list Recommendation) (url u t : string),
    (count_pending recs u t
     <= count_pending (save_loop now i recs url issues) u t)%nat.
Proof.
  induction issues as [|rec rest IH]; intros i recs url u t; [simpl; lia|].
  rewrite save_loop_cons.
  etransitivity; [|apply IH]. rewrite step_count. lia.
Qed.

Lemma save_loop_covers (now : nat -> DateTime) (issues : list Issue) :
  forall (i : nat) (recs : list Recommendation) (url : string) (rec : Issue),
    In rec issues ->
    (1 <= count_pending (save_loop now i recs url issues)
                        url (issue_type rec))%nat.
Proof.
  induction issues as [|x rest IH]; intros i recs url rec Hin; [easy|].
  rewrite save_loop_cons. destruct Hin as [->|Hin].
  - etransitivity; [apply (step_covers (now i))|apply save_loop_mono].
  - now apply IH.
Qed.

Lemma save_loop_noop (now : nat -> DateTime) (issues : list Issue) :
  forall (i : nat) (recs : list Recommendation) (url : string),
    (forall rec, In rec issues ->
                 (1 <= count_pending recs url (issue_type rec))%nat) ->
    save_loop now i recs url issues = recs.
Proof.
  induction issues as [|x rest IH]; intros i recs url H; [reflexivity|].
  rewrite save_loop_cons.
  assert (E : step (now i) recs url x = recs).
  { unfold step. specialize (H x (or_introl eq_refl)).
    destruct (Nat.eqb_spec (count_pending recs url (issue_type x)) 0);
      [lia|reflexivity]. }
  rewrite E. apply IH. intros rec Hin. apply H. now right.
Qed.

Lemma save_loop_inserted (now : nat -> DateTime) (issues : list Issue) :
  forall (i : nat) (recs : list Recommendation) (url : string)
         (r : Recommendation),
    In r (save_loop now i recs url issues) ->
    In r recs \/
    (rec_url r = url /\ status r = "pending" /\
     (exists rec, In rec issues /\ rec_type r = issue_type rec) /\
     count_pending recs url (rec_type r) = 0%nat).
Proof.
  induction issues as [|x rest IH]; intros i recs url r Hin; [now left|].
  rewrite save_loop_cons in Hin. apply IH in Hin.
  pose proof (step_count (now i) recs url x url (rec_type r)) as Hc.
  destruct Hin as [Hin|(Hu & Hs & (rec & Hrec & Ht) & H0)].
  - unfold step in Hin.
    destruct (Nat.eqb_spec (count_pending recs url (issue_type x)) 0)
      as [E|E]; [|now left].
    apply in_app_or in Hin. destruct Hin as [Hin|[<-|[]]]; [now left|].
    right. simpl. refine (conj eq_refl (conj eq_refl (conj _ E))).
    exists x. split; [now left|reflexivity].
  - right. refine (conj Hu (conj Hs (conj _ _))); [|lia].
    exists rec. split; [now right|exact Ht].
Qed.

(** C7.  [save_recommendations] keeps the invariant that a (url, type)
    pair has at most one pending recommendation; every row it adds is a
    pending row of the url, for the type of one of the issues, and for a
    pair that had no pending row before; and a second call with the same
    issue list, with nothing changed in between, leaves the table as the
    first call left it. *)
Theorem save_recommendations_one_pending (now now' : nat -> DateTime)
    (recs : list Recommendation) (url : string) (issues : list Issue) :
  (at_most_one_pending recs ->
   at_most_one_pending (save_recommendations now recs url issues)) /\
  (forall r, In r (save_recommendations now recs url issues) ->
     In r recs \/
     (rec_url r = url /\ status r = "pending" /\
      (exists rec, In rec issues /\ rec_type r = issue_type rec) /\
      count_pending recs url (rec_type r) = 0%nat)) /\
  save_recommendations now' (save_recommendations now recs url issues)
                       url issues
  = save_recommendations now recs url issues.
Proof.
  unfold save_recommendations. repeat apply conj.
  - apply save_loop_invariant.
  - apply save_loop_inserted.
  - apply save_loop_noop. intros rec Hin. now apply save_loop_covers.
Qed.

Lemma save_recommendations_one_pending_witness :
  at_most_one_pending
    (save_recommendations
       (fun i => mkDateTime 1700000000 (Z.of_nat i)) [] "https://example.com"
       [ mkIssue "speed" "Improve server response" 1 10;
         mkIssue "title" "Add a descriptive title tag" 1 10;
         mkIssue "speed" "Reduce requests" 2 10 ]).
Proof.
  apply (save_recommendations_one_pending
           (fun i => mkDateTime 1700000000 (Z.of_nat i))
           (fun i => mkDateTime 1700000000 (Z.of_nat i))).
  intros u t. unfold count_pending. simpl. lia.
Defined.

End RecommendationFacts.

Section ScanFacts.
Import History.

Variables (url : string) (score_data : Scorer.ScoreResult)
          (structured_data faq mobile : bool) (performance_score : Z).

Let record (clk : Clock) (scans : list ScanRecord) : list ScanRecord :=
  save_scan_results clk scans url score_data structured_data faq mobile
                    performance_score.

Lemma save_scan_results_length (clk : Clock) (scans : list ScanRecord) :
  List.length (record clk scans) =
  if (0 <? count_recent clk scans url)%nat
  then List.length scans else S (List.length scans).
Proof.
  unfold record, save_scan_results.
  destruct (0 <? count_recent clk scans url)%nat; [reflexivity|].
  rewrite length_app. simpl. lia.
Qed.

Lemma save_scan_results_noop (clk : Clock) (scans : list ScanRecord) :
  (0 <? count_recent clk scans url)%nat = true -> record clk scans = scans.
Proof. intros H. unfold record, save_scan_results. now rewrite H. Qed.

(** The count that the second call makes after a first call on an empty
    table. *)
Lemma count_recent_after_first (c1 c2 : Clock) :
  count_recent c2 (record c1 []) url =
  if utc c2 - 60 <=? utc c1 + utc_offset c1 then 1%nat else 0%nat.
Proof.
  unfold record, save_scan_results, count_recent.
  cbn -[Z.add Z.sub Z.leb String.eqb].
  rewrite String.eqb_refl. unfold text_ge, sqlite_now_minus_1_minute.
  cbn -[Z.add Z.sub Z.leb].
  destruct (utc c2 - 60 <=? utc c1 + utc_offset c1); reflexivity.
Qed.

(** In general the window is shifted by the offset of the local zone. *)
Lemma save_scan_results_window (c1 c2 : Clock) :
  List.length (record c1 []) = 1%nat /\
  (utc c2 - utc c1 <= 60 + utc_offset c1 ->
   record c2 (record c1 []) = record c1 []) /\
  (60 + utc_offset c1 < utc c2 - utc c1 ->
   List.length (record c2 (record c1 [])) = 2%nat).
Proof.
  repeat apply conj; [reflexivity| |]; intros H.
  - apply save_scan_results_noop. rewrite count_recent_after_first.
    destruct (Z.leb_spec (utc c2 - 60) (utc c1 + utc_offset c1));
      [reflexivity|lia].
  - rewrite save_scan_results_length, count_recent_after_first.
    destruct (Z.leb_spec (utc c2 - 60) (utc c1 + utc_offset c1));
      [lia|reflexivity].
Qed.

(** On a host whose local time is UTC the debounce is the one-minute
    window, counted in whole seconds. *)
Lemma save_scan_results_utc_host (c1 c2 : Clock) :
  utc_offset c1 = 0 ->
  List.length (record c1 []) = 1%nat /\
  (utc c2 - utc c1 <= 60 -> record c2 (record c1 []) = record c1 []) /\
  (60 < utc c2 - utc c1 ->
   List.length (record c2 (record c1 [])) = 2%nat).
Proof.
  intros H1. destruct (save_scan_results_window c1 c2) as (A & B & C).
  rewrite H1, Z.add_0_r in B, C. auto.
Qed.

End ScanFacts.

Section ScanClaims.
Import History.

(** C8 at failing inputs.  On a host five hours behind UTC, a second call
    for the same url ten seconds after the first stores a second record;
    on a host two hours ahead of UTC, a call one hour after the first
    stores nothing. *)
Theorem save_scan_results_local_clock :
  let scan clk scans :=
    save_scan_results clk scans "https://example.com" Samples.score0
                      true true true 85 in
  List.length (scan Samples.west []) = 1%nat /\
  List.length (scan Samples.west_10s_later (scan Samples.west [])) = 2%nat /\
  List.length (scan Samples.east []) = 1%nat /\
  scan Samples.east_1h_later (scan Samples.east []) = scan Samples.east [].
Proof. cbv zeta. repeat apply conj; reflexivity. Qed.

End ScanClaims.

(* ===================================================================== *)
(** * Further properties *)
(* ===================================================================== *)

(** ** Access gate: issuing and logging in *)

Section IssueFacts.
Import AccessGate.

Lemma choice_in_alphabet (rng : Secrets) (k : nat) : In (choice rng k) alphabet.
Proof.
  unfold choice. apply nth_In. apply Nat.mod_upper_bound.
  assert (List.length alphabet = 36%nat) as -> by reflexivity. discriminate.
Qed.

(** X1.  A generated code has eight characters, each an upper-case letter
    or a digit. *)
Theorem generate_unique_code_alphabet (rng : Secrets) (k : nat) :
  String.length (fst (generate_unique_code rng k)) = 8%nat /\
  Forall (fun c => In c alphabet)
         (list_ascii_of_string (fst (generate_unique_code rng k))) /\
  snd (generate_unique_code rng k) = (k + 8)%nat.
Proof.
  repeat apply conj; [reflexivity| |reflexivity].
  unfold generate_unique_code. cbn [fst].
  rewrite list_ascii_of_string_of_list_ascii.
  apply Forall_forall. intros c Hc. apply in_map_iff in Hc.
  destruct Hc as (i & <- & _). apply choice_in_alphabet.
Qed.

(** A call made while the caller's connection holds the lock returns no
    code. *)
Lemma save_access_code_locked (depth : nat) (rng : Secrets) (k : nat)
    (db : Table) (e : string) :
  save_access_code depth rng k true db e = inl Py.RecursionError \/
  save_access_code depth rng k true db e
  = inl (Py.OperationalError "database is locked").
Proof. destruct depth; simpl; auto. Qed.

(** What a successful call has done. *)
Lemma save_access_code_inr (depth : nat) (rng : Secrets) (k : nat)
    (db db' : Table) (e c : string) :
  save_access_code depth rng k false db e = inr (c, db') ->
  c = attempt rng k 0 /\
  email_taken db e = false /\ code_taken db c = false /\
  db' = db ++ [ {| ac_id := next_id db; email := e; code := c;
                   used := false |} ].
Proof.
  unfold attempt. rewrite Nat.mul_0_r, Nat.add_0_r.
  destruct depth as [|d]; simpl; [discriminate|].
  unfold execute_insert, insert.
  destruct (email_taken db e) eqn:He; simpl.
  - destruct (save_access_code_locked d rng (k + 8) db e) as [-> | ->];
      discriminate.
  - destruct (code_taken db _) eqn:Hc; simpl.
    + destruct (save_access_code_locked d rng (k + 8) db e) as [-> | ->];
        discriminate.
    + intros H. injection H as <- <-. auto.
Qed.

(** X2.  With two frames or more, [save_access_code] has exactly two
    outcomes: when neither the email nor the first generated code is stored
    it appends the pair, unused, and returns the code; in every other case
    it raises [database is locked] and returns no code. *)
Theorem save_access_code_outcome (depth : nat) (rng : Secrets) (k : nat)
    (db : Table) (e : string) :
  save_access_code (S (S depth)) rng k false db e =
  if email_taken db e || code_taken db (attempt rng k 0)
  then inl (Py.OperationalError "database is locked")
  else inr (attempt rng k 0,
            db ++ [ {| ac_id := next_id db; email := e;
                       code := attempt rng k 0; used := false |} ]).
Proof.
  unfold attempt. rewrite Nat.mul_0_r, Nat.add_0_r. simpl.
  unfold execute_insert, insert.
  destruct (email_taken db e); simpl; [reflexivity|].
  destruct (code_taken db _); reflexivity.
Qed.

Lemma find_app_last {A : Type} (p : A -> bool) (l : list A) (x : A) :
  existsb p l = false -> p x = true -> find p (l ++ [x]) = Some x.
Proof.
  induction l as [|a l IH]; simpl; intros H Hx.
  - now rewrite Hx.
  - apply orb_false_iff in H. destruct H as [Ha Hl].
    rewrite Ha. now apply IH.
Qed.

Lemma code_taken_unused (db : Table) (c : string) :
  code_taken db c = false ->
  existsb (fun r => String.eqb (code r) c && negb (used r)) db = false.
Proof.
  unfold code_taken. induction db as [|a db IH]; simpl; [easy|].
  intros H. apply orb_false_iff in H. destruct H as [-> H].
  simpl. now apply IH.
Qed.

Lemma validate_appended (db : Table) (id : Z) (e c : string) :
  code_taken db c = false ->
  validate_access_code
    (db ++ [ {| ac_id := id; email := e; code := c; used := false |} ]) c
  = inr (Some {| ac_id := id; email := e; code := c; used := false |}).
Proof.
  intros Hc. unfold validate_access_code. rewrite bind1_tuple1. simpl.
  unfold Py.ret. apply f_equal.
  apply find_app_last; [now apply code_taken_unused|].
  simpl. now rewrite String.eqb_refl.
Qed.

(** X3.  A code that [save_access_code] has returned validates: the row
    found is the new one, with the buyer's email and the flag unset; the
    rows stored before are still there, unchanged and in place. *)
Theorem save_access_code_validates (depth : nat) (rng : Secrets) (k : nat)
    (db db' : Table) (e c : string) :
  save_access_code depth rng k false db e = inr (c, db') ->
  validate_access_code db' c
  = inr (Some {| ac_id := next_id db; email := e; code := c;
                 used := false |}) /\
  firstn (List.length db) db' = db /\
  List.length db' = S (List.length db).
Proof.
  intros H. apply save_access_code_inr in H.
  destruct H as (_ & _ & Hc & ->). repeat apply conj.
  - now apply validate_appended.
  - rewrite firstn_app, Nat.sub_diag, firstn_all. simpl. apply app_nil_r.
  - rewrite length_app. simpl. lia.
Qed.

Lemma save_access_code_validates_witness :
  validate_access_code
    (Samples.one_unused ++ [mkAccessCode 2 "bob@example.com" "IJKLMNOP" false])
    "IJKLMNOP"
  = inr (Some (mkAccessCode 2 "bob@example.com" "IJKLMNOP" false)).
Proof.
  apply (save_access_code_validates 5 Samples.in_turn 8 Samples.one_unused
           _ "bob@example.com" "IJKLMNOP").
  reflexivity.
Defined.

Lemma existsb_false_not_in (db : Table) (f : AccessCode -> string)
    (x : string) :
  existsb (fun r => String.eqb (f r) x) db = false -> ~ In x (map f db).
Proof.
  induction db as [|a db IH]; simpl; intros H; [tauto|].
  apply orb_false_iff in H. destruct H as [Ha H].
  apply String.eqb_neq in Ha. intros [E|E]; [congruence|now apply IH].
Qed.

Lemma next_id_above (db : Table) (r : AccessCode) :
  In r db -> ac_id r < next_id db.
Proof.
  unfold next_id.
  induction db as [|a db IH]; cbn [map fold_right In]; intros H; [tauto|].
  destruct H as [->|H]; [lia|]. specialize (IH H). lia.
Qed.

(** X4.  [save_access_code] keeps the three keys of the table unique: no
    two rows share an id, an email or a code. *)
Theorem save_access_code_unique (depth : nat) (rng : Secrets) (k : nat)
    (db db' : Table) (e c : string) :
  NoDup (map ac_id db) -> NoDup (map email db) -> NoDup (map code db) ->
  save_access_code depth rng k false db e = inr (c, db') ->
  NoDup (map ac_id db') /\ NoDup (map email db') /\ NoDup (map code db').
Proof.
  intros Hi He Hc H. apply save_access_code_inr in H.
  destruct H as (_ & Het & Hct & ->).
  rewrite !map_app. simpl. repeat apply conj.
  - apply NoDup_app; [exact Hi|repeat constructor; simpl; tauto|].
    intros x Hx [<-|[]]. apply in_map_iff in Hx.
    destruct Hx as (r & Hr & Hin). apply next_id_above in Hin. lia.
  - apply NoDup_app; [exact He|repeat constructor; simpl; tauto|].
    intros x Hx [<-|[]]. now apply (existsb_false_not_in db email e).
  - apply NoDup_app; [exact Hc|repeat constructor; simpl; tauto|].
    intros x Hx [<-|[]]. now apply (existsb_false_not_in db code c).
Qed.

Lemma save_access_code_unique_witness :
  NoDup (map code
           (Samples.one_unused ++
            [mkAccessCode 2 "bob@example.com" "IJKLMNOP" false])).
Proof.
  apply (save_access_code_unique 5 Samples.in_turn 8 Samples.one_unused
           _ "bob@example.com" "IJKLMNOP").
  - repeat constructor; simpl; tauto.
  - repeat constructor; simpl; tauto.
  - repeat constructor; simpl; tauto.
  - reflexivity.
Defined.

(** X5.  Logging in with an issued code unlocks the session, and then
    [mark_code_as_used] raises on its parameters: the table is left as it
    was, so the same code unlocks the next session as well. *)
Theorem login_issued_code (depth : nat) (rng : Secrets) (k : nat)
    (db db' : Table) (e c : string) :
  save_access_code depth rng k false db e = inr (c, db') ->
  App.login db' false c
  = App.mkLogin true db' (Some (Py.ProgrammingError 1 8)).
Proof.
  intros H. apply save_access_code_inr in H.
  destruct H as (-> & _ & Hc & ->).
  unfold App.login. rewrite (validate_appended db _ e _ Hc).
  unfold attempt. rewrite mark_code_as_used_issued. reflexivity.
Qed.

Lemma login_issued_code_witness :
  App.login
    (Samples.one_unused ++ [mkAccessCode 2 "bob@example.com" "IJKLMNOP" false])
    false "IJKLMNOP"
  = App.mkLogin true
      (Samples.one_unused ++
       [mkAccessCode 2 "bob@example.com" "IJKLMNOP" false])
      (Some (Py.ProgrammingError 1 8)).
Proof.
  apply (login_issued_code 5 Samples.in_turn 8 Samples.one_unused
           _ "bob@example.com" "IJKLMNOP").
  reflexivity.
Defined.

(** X6.  A locked session is unlocked exactly by a code that some row
    holds unused; an empty code or an already unlocked session changes
    nothing; and no login changes the table unless the code is a single
    character. *)
Theorem login_grants (db : Table) (c : string) :
  (c <> "" ->
   (App.pro_unlocked (App.login db false c) = true <->
    exists row, In row db /\ code row = c /\ used row = false)) /\
  App.login db false "" = App.mkLogin false db None /\
  App.login db true c = App.mkLogin true db None /\
  (String.length c <> 1%nat ->
   forall unlocked, App.table (App.login db unlocked c) = db).
Proof.
  repeat apply conj.
  - intros Hne. apply String.eqb_neq in Hne. unfold App.login.
    rewrite Hne. unfold validate_access_code.
    rewrite bind1_tuple1. cbn [negb andb Py.bind Py.ret].
    destruct (find _ db) as [row|] eqn:F.
    + apply find_some in F. destruct F as [Hin Hb].
      apply andb_true_iff in Hb. destruct Hb as [Hc Hu].
      apply String.eqb_eq in Hc. apply negb_true_iff in Hu.
      split; [intros _; eauto|intros _].
      destruct (mark_code_as_used db c); reflexivity.
    + simpl. split; [discriminate|]. intros (row & Hin & Hc & Hu).
      pose proof (find_none _ _ F row Hin) as N. simpl in N.
      rewrite Hc, String.eqb_refl, Hu in N. discriminate.
  - reflexivity.
  - unfold App.login. now rewrite andb_false_r.
  - intros Hlen unlocked. unfold App.login.
    destruct (negb (String.eqb c "") && negb unlocked); [|reflexivity].
    destruct (validate_access_code db c) as [x|[row|]]; try reflexivity.
    now rewrite mark_code_as_used_raises.
Qed.

Lemma login_grants_witness :
  App.pro_unlocked (App.login Samples.one_unused false "ABCDEFGH") = true.
Proof.
  destruct (login_grants Samples.one_unused "ABCDEFGH") as (H & _).
  apply H; [discriminate|].
  exists (mkAccessCode 1 "ada@example.com" "ABCDEFGH" false).
  simpl. auto.
Defined.

End IssueFacts.

(** ** History store: scans *)

Section ScanStoreFacts.
Import History.

Variables (clk : Clock) (scans : list ScanRecord) (url : string)
          (score_data : Scorer.ScoreResult)
          (structured_data faq mobile : bool) (performance_score : Z).

Let scans' : list ScanRecord :=
  save_scan_results clk scans url score_data structured_data faq mobile
                    performance_score.

Lemma count_recent_positive :
  (0 <? count_recent clk scans url)%nat = true <->
  exists r, In r scans /\ scan_url r = url /\
            utc clk - 60 <= seconds (scan_date r).
Proof.
  unfold count_recent, text_ge, sqlite_now_minus_1_minute.
  rewrite Nat.ltb_lt. split.
  - intros H.
    destruct (filter _ scans) as [|r l] eqn:F; [simpl in H; lia|].
    assert (Hin : In r (r :: l)) by now left.
    rewrite <- F in Hin. apply filter_In in Hin. destruct Hin as [Hin Hb].
    apply andb_true_iff in Hb. destruct Hb as [Hu Hd].
    apply String.eqb_eq in Hu. apply Z.leb_le in Hd. eauto.
  - intros (r & Hin & Hu & Hd).
    assert (Hf : In r (filter
                         (fun r => String.eqb (scan_url r) url &&
                                   (utc clk - 60 <=? seconds (scan_date r)))
                         scans)).
    { apply filter_In. split; [exact Hin|].
      apply andb_true_iff. split;
        [now apply String.eqb_eq | now apply Z.leb_le]. }
    destruct (filter _ scans); [destruct Hf|simpl; lia].
Qed.

(** X7.  [save_scan_results] either leaves the table as it is or appends
    one record, which carries the url, the local time of the call, the
    total score and the performance score; it leaves the table as it is
    exactly when some record of the same url has a date text at or after
    the UTC time one minute before.  Records of other urls play no part. *)
Theorem save_scan_results_appends :
  (scans' = scans \/
   exists r, scans' = scans ++ [r] /\ scan_url r = url /\
             scan_date r = datetime_now clk /\
             scan_total_score r = Scorer.total_score score_data /\
             speed_score r = performance_score) /\
  (scans' = scans <->
   exists r, In r scans /\ scan_url r = url /\
             utc clk - 60 <= seconds (scan_date r)).
Proof.
  subst scans'. unfold save_scan_results.
  rewrite <- count_recent_positive.
  destruct (0 <? count_recent clk scans url)%nat.
  - split; [now left|tauto].
  - split.
    + right. eexists. split; [reflexivity|]. simpl. auto.
    + split; [|discriminate]. intros H.
      apply (f_equal (@List.length _)) in H.
      rewrite length_app in H. simpl in H. lia.
Qed.

(** X8.  A stored scan appears in the history of its own url and leaves
    the history of every other url as it was. *)
Theorem save_scan_results_history (recs : list Recommendation) :
  (forall v, v <> url ->
     fst (get_historical_data scans' recs v)
     = fst (get_historical_data scans recs v)) /\
  (scans' <> scans ->
   exists r, In r (fst (get_historical_data scans' recs url)) /\
             scan_date r = datetime_now clk /\
             scan_total_score r = Scorer.total_score score_data) /\
  (forall v, snd (get_historical_data scans' recs v)
             = snd (get_historical_data scans recs v)).
Proof.
  subst scans'. unfold save_scan_results, get_historical_data.
  destruct (0 <? count_recent clk scans url)%nat; cbn [fst snd].
  - repeat apply conj; [reflexivity|tauto|reflexivity].
  - repeat apply conj; [| |reflexivity].
    + intros v Hv. rewrite filter_app. cbn [filter scan_url].
      assert (Hv' : String.eqb url v = false)
        by (apply String.eqb_neq; congruence).
      rewrite Hv'. now rewrite app_nil_r.
    + intros _. eexists. split.
      * eapply Permutation_in; [apply order_by_perm|].
        apply filter_In. split.
        -- apply in_or_app. right. left. reflexivity.
        -- simpl. apply String.eqb_refl.
      * simpl. auto.
Qed.

End ScanStoreFacts.

Lemma save_scan_results_history_witness :
  fst (History.get_historical_data
         (History.save_scan_results Samples.west [] "https://example.com"
            Samples.score0 true true true 85) [] "https://example.org")
  = fst (History.get_historical_data [] [] "https://example.org").
Proof.
  apply (save_scan_results_history Samples.west [] "https://example.com"
           Samples.score0 true true true 85 []).
  discriminate.
Defined.


Section ScanHistoryFacts.
Import History.

Lemma date_leb_total (a b : DateTime) :
  date_leb a b = true \/ date_leb b a = true.
Proof.
  unfold date_leb.
  destruct (Z.ltb_spec (seconds a) (seconds b)); simpl; [now left|].
  destruct (Z.ltb_spec (seconds b) (seconds a)); simpl; [now right|].
  assert (seconds a = seconds b) as E by lia. rewrite E, Z.eqb_refl. simpl.
  destruct (Z.leb_spec (microsecond a) (microsecond b)); [now left|right].
  apply Z.leb_le. lia.
Qed.

Lemma get_historical_data_scans_aux (scans : list ScanRecord)
    (recs : list Recommendation) (url : string) :
  let df_scans := fst (get_historical_data scans recs url) in
  Permutation (filter (fun r => String.eqb (scan_url r) url) scans) df_scans /\
  Sorted (fun a b => date_leb (scan_date a) (scan_date b) = true) df_scans /\
  (forall r, In r df_scans <-> In r scans /\ scan_url r = url).
Proof.
  cbv zeta. unfold get_historical_data. cbn [fst].
  repeat apply conj.
  - apply order_by_perm.
  - apply (order_by_sorted
             (fun a b => date_leb (scan_date a) (scan_date b))).
    intros a b. apply date_leb_total.
  - intros r. split; intros H.
    + eapply Permutation_in in H; [|apply Permutation_sym, order_by_perm].
      apply filter_In in H. destruct H as [Hin Hb].
      apply String.eqb_eq in Hb. auto.
    + destruct H as [Hin Hu].
      eapply Permutation_in; [apply order_by_perm|].
      apply filter_In. split; [exact Hin|now apply String.eqb_eq].
Qed.

(** X9.  The scans that [get_historical_data] returns are exactly the
    stored scans of the url, each as often as stored, oldest first. *)
Theorem get_historical_data_scans (scans : list ScanRecord)
    (recs : list Recommendation) (url : string) :
  let df_scans := fst (get_historical_data scans recs url) in
  Permutation (filter (fun r => String.eqb (scan_url r) url) scans) df_scans /\
  Sorted (fun a b => date_leb (scan_date a) (scan_date b) = true) df_scans /\
  (forall r, In r df_scans <-> In r scans /\ scan_url r = url).
Proof. apply get_historical_data_scans_aux. Qed.

End ScanHistoryFacts.

(** ** History store: the life of a recommendation *)

Section LifecycleFacts.
Import History.

(** The row that [update_recommendation_status] writes in place of [r]. *)
Let updated (clk : Clock) (s : string) (n : option string)
    (r : Recommendation) : Recommendation :=
  {| rec_id := rec_id r; rec_url := rec_url r;
     creation_date := creation_date r; rec_type := rec_type r;
     rec_description := rec_description r; priority := priority r;
     points_potential := points_potential r;
     status := s;
     implementation_date :=
       if String.eqb s "implemented" then Some (datetime_now clk) else None;
     notes := n |}.

Lemma update_as_map (clk : Clock) (recs : list Recommendation) (id : Z)
    (s : string) (n : option string) :
  update_recommendation_status clk recs id s n =
  map (fun r => if rec_id r =? id then updated clk s n r else r) recs.
Proof. reflexivity. Qed.

(** X10.  [update_recommendation_status] rewrites the status, the notes
    and the implementation date of the rows with the given id and nothing
    else: ids, urls, types, priorities and potentials stay, rows with
    another id stay whole, and an id that no row has changes nothing.  The
    implementation date is the time of the call when the new status is
    [implemented] and is cleared for any other status; of two updates of
    one id only the later one shows. *)
Theorem update_recommendation_status_effect (clk clk' : Clock)
    (recs : list Recommendation) (id : Z) (s s' : string)
    (n n' : option string) :
  let recs' := update_recommendation_status clk recs id s n in
  map (fun r => (rec_id r, rec_url r, rec_type r, priority r,
                 points_potential r, creation_date r, rec_description r))
      recs'
  = map (fun r => (rec_id r, rec_url r, rec_type r, priority r,
                   points_potential r, creation_date r, rec_description r))
        recs /\
  (forall r, In r recs -> rec_id r <> id -> In r recs') /\
  (forall r', In r' recs' -> rec_id r' = id ->
     status r' = s /\ notes r' = n /\
     implementation_date r' =
       if String.eqb s "implemented" then Some (datetime_now clk)
       else None) /\
  ((forall r, In r recs -> rec_id r <> id) -> recs' = recs) /\
  update_recommendation_status clk' recs' id s' n'
  = update_recommendation_status clk' recs id s' n'.
Proof.
  cbv zeta. rewrite !update_as_map. repeat apply conj.
  - rewrite map_map. apply map_ext. intros r.
    destruct (rec_id r =? id); reflexivity.
  - intros r Hin Hid. apply in_map_iff. exists r. split; [|exact Hin].
    apply Z.eqb_neq in Hid. now rewrite Hid.
  - intros r' Hin Hid. apply in_map_iff in Hin.
    destruct Hin as (r & <- & _).
    destruct (Z.eqb_spec (rec_id r) id) as [E|E]; simpl; auto.
    contradiction.
  - intros H. rewrite <- (map_id recs) at 2. apply map_ext_in.
    intros r Hin. specialize (H r Hin). apply Z.eqb_neq in H.
    now rewrite H.
  - rewrite map_map. apply map_ext. intros r.
    destruct (Z.eqb_spec (rec_id r) id) as [E|E]; simpl.
    + rewrite E, Z.eqb_refl. reflexivity.
    + apply Z.eqb_neq in E. now rewrite E.
Qed.

Lemma update_recommendation_status_effect_witness :
  update_recommendation_status Samples.west
    [Samples.rec_title; Samples.rec_faq] 7 "implemented" None
  = [Samples.rec_title; Samples.rec_faq].
Proof.
  destruct (update_recommendation_status_effect Samples.west Samples.west
              [Samples.rec_title; Samples.rec_faq] 7
              "implemented" "implemented" None None) as (_ & _ & _ & H & _).
  apply H. intros r [<-|[<-|[]]]; discriminate.
Defined.

(** Taking a pending row out of the pending state lowers the count of its
    pair. *)
Lemma update_lowers_count (clk : Clock) (recs : list Recommendation)
    (r : Recommendation) (s : string) (n : option string) (u t : string) :
  s <> "pending" ->
  (count_pending (update_recommendation_status clk recs (rec_id r) s n) u t
   <= count_pending recs u t)%nat /\
  (In r recs -> is_pending_for u t r = true ->
   (count_pending (update_recommendation_status clk recs (rec_id r) s n) u t
    < count_pending recs u t)%nat).
Proof.
  intros Hs. apply String.eqb_neq in Hs. rewrite update_as_map.
  unfold count_pending.
  induction recs as [|a recs [IH1 IH2]]; simpl; [split; [lia|tauto]|].
  destruct (Z.eqb_spec (rec_id a) (rec_id r)) as [E|E].
  - assert (N : is_pending_for u t (updated clk s n a) = false).
    { unfold is_pending_for. simpl. rewrite Hs. apply andb_false_r. }
    rewrite N. destruct (is_pending_for u t a) eqn:Pa; simpl.
    + split; [lia|]. intros _ _. lia.
    + split; [lia|]. intros [->|Hin] Hp; [congruence|]. now apply IH2.
  - destruct (is_pending_for u t a) eqn:Pa; simpl.
    + split; [lia|]. intros [->|Hin] Hp; [contradiction|].
      specialize (IH2 Hin Hp). lia.
    + split; [lia|]. intros [->|Hin] Hp; [contradiction|]. now apply IH2.
Qed.

(** X11.  Once the pending recommendation of a (url, type) pair has been
    given another status, the pair has no pending row, and the next
    [save_recommendations] that brings an issue of this type stores it as
    a new pending row after the existing ones. *)
Theorem recommendation_recorded_again (clk : Clock) (now : nat -> DateTime)
    (recs : list Recommendation) (r : Recommendation) (s : string)
    (n : option string) (url : string) (issue : Issue) :
  at_most_one_pending recs ->
  In r recs -> is_pending_for url (issue_type issue) r = true ->
  s <> "pending" ->
  let recs' := update_recommendation_status clk recs (rec_id r) s n in
  count_pending recs' url (issue_type issue) = 0%nat /\
  save_recommendations now recs' url [issue]
  = recs' ++ [new_recommendation recs' url (now 0%nat) issue].
Proof.
  intros Hinv Hin Hp Hs. cbv zeta.
  destruct (update_lowers_count clk recs r s n url (issue_type issue) Hs)
    as [_ Hlt].
  specialize (Hlt Hin Hp). specialize (Hinv url (issue_type issue)).
  assert (E : count_pending
                (update_recommendation_status clk recs (rec_id r) s n)
                url (issue_type issue) = 0%nat) by lia.
  split; [exact E|].
  unfold save_recommendations. simpl. unfold step. now rewrite E.
Qed.

Lemma recommendation_recorded_again_witness :
  count_pending
    (update_recommendation_status Samples.west
       [Samples.rec_title; Samples.rec_faq] 1 "implemented" None)
    "https://example.com" "title" = 0%nat.
Proof.
  apply (recommendation_recorded_again Samples.west
           (fun _ => mkDateTime 1700000100 0)
           [Samples.rec_title; Samples.rec_faq] Samples.rec_title
           "implemented" None "https://example.com"
           (mkIssue "title" "Add a descriptive title tag" 1 10)).
  - intros u t. unfold count_pending. cbn [filter].
    destruct (is_pending_for u t Samples.rec_title) eqn:A;
      destruct (is_pending_for u t Samples.rec_faq) eqn:B;
      cbn [List.length]; try lia.
    unfold is_pending_for in A, B.
    apply andb_true_iff in A, B. destruct A as [A _], B as [B _].
    apply andb_true_iff in A, B. destruct A as [_ A], B as [_ B].
    apply String.eqb_eq in A, B. cbn in A, B. congruence.
  - simpl. auto.
  - reflexivity.
  - discriminate.
Defined.

Lemma next_rec_id_above (recs : list Recommendation) (r : Recommendation) :
  In r recs -> rec_id r < next_rec_id recs.
Proof.
  unfold next_rec_id.
  induction recs as [|a recs IH]; cbn [map fold_right In]; intros H; [tauto|].
  destruct H as [->|H]; [lia|]. specialize (IH H). lia.
Qed.

Lemma step_appends (now : DateTime) (recs : list Recommendation)
    (url : string) (rec : Issue) :
  exists added, step now recs url rec = recs ++ added /\
                (List.length added <= 1)%nat /\
                (NoDup (map rec_id recs) ->
                 NoDup (map rec_id (recs ++ added))).
Proof.
  unfold step.
  destruct (Nat.eqb (count_pending recs url (issue_type rec)) 0).
  - eexists. split; [reflexivity|]. split; [simpl; lia|].
    intros Hn. rewrite map_app. simpl.
    apply NoDup_app; [exact Hn|repeat constructor; simpl; tauto|].
    intros x Hx [<-|[]]. apply in_map_iff in Hx.
    destruct Hx as (r & Hr & Hin). apply next_rec_id_above in Hin. lia.
  - exists []. rewrite app_nil_r. split; [reflexivity|].
    split; [simpl; lia|auto].
Qed.

Lemma save_loop_appends (now : nat -> DateTime) (issues : list Issue) :
  forall (i : nat) (recs : list Recommendation) (url : string),
  exists added, save_loop now i recs url issues = recs ++ added /\
                (List.length added <= List.length issues)%nat /\
                (NoDup (map rec_id recs) ->
                 NoDup (map rec_id (recs ++ added))).
Proof.
  induction issues as [|x rest IH]; intros i recs url.
  - exists []. rewrite app_nil_r. simpl. auto.
  - rewrite save_loop_cons.
    destruct (step_appends (now i) recs url x) as (a1 & E1 & L1 & N1).
    destruct (IH (S i) (step (now i) recs url x) url) as (a2 & E2 & L2 & N2).
    exists (a1 ++ a2). rewrite E2, E1, <- app_assoc.
    split; [reflexivity|]. split.
    + rewrite length_app. simpl. lia.
    + intros Hn. rewrite app_assoc, <- E1. apply N2. rewrite E1. auto.
Qed.

(** X12.  [save_recommendations] only appends: the rows stored before
    stay first, whole and in order, at most one row is added per issue,
    and ids that were distinct stay distinct. *)
Theorem save_recommendations_appends (now : nat -> DateTime)
    (recs : list Recommendation) (url : string) (issues : list Issue) :
  exists added,
    save_recommendations now recs url issues = recs ++ added /\
    (List.length added <= List.length issues)%nat /\
    (NoDup (map rec_id recs) ->
     NoDup (map rec_id (save_recommendations now recs url issues))).
Proof.
  unfold save_recommendations.
  destruct (save_loop_appends now issues 0 recs url) as (added & E & L & N).
  exists added. rewrite E. auto.
Qed.

Lemma save_recommendations_appends_witness :
  exists added,
    save_recommendations (fun _ => mkDateTime 1700000100 0)
      [Samples.rec_title; Samples.rec_faq] "https://example.com"
      [mkIssue "h1" "Add an H1 header" 1 10]
    = [Samples.rec_title; Samples.rec_faq] ++ added /\
    NoDup (map rec_id
             (save_recommendations (fun _ => mkDateTime 1700000100 0)
                [Samples.rec_title; Samples.rec_faq] "https://example.com"
                [mkIssue "h1" "Add an H1 header" 1 10])).
Proof.
  destruct (save_recommendations_appends (fun _ => mkDateTime 1700000100 0)
              [Samples.rec_title; Samples.rec_faq] "https://example.com"
              [mkIssue "h1" "Add an H1 header" 1 10]) as (added & E & _ & N).
  exists added. split; [exact E|]. apply N.
  repeat constructor; simpl; intuition discriminate.
Defined.

End LifecycleFacts.

(** ** Progress summary *)

Section ListFacts.
Context {A : Type}.

Lemma filter_length_perm (p : A -> bool) (l l' : list A) :
  Permutation l l' ->
  List.length (filter p l) = List.length (filter p l').
Proof.
  induction 1 as [|x l l' _ IH|x y l|l l' l'' _ IH1 _ IH2]; simpl.
  - reflexivity.
  - destruct (p x); simpl; now rewrite IH.
  - destruct (p x), (p y); reflexivity.
  - now rewrite IH1.
Qed.

Lemma filter_twice (p q : A -> bool) (l : list A) :
  filter q (filter p l) = filter (fun x => p x && q x) l.
Proof.
  induction l as [|a l IH]; simpl; [reflexivity|].
  destruct (p a); simpl; [destruct (q a)|]; now rewrite IH.
Qed.

Lemma filter_none (p : A -> bool) (l : list A) :
  (forall x, In x l -> p x = false) -> filter p l = [].
Proof.
  induction l as [|a l IH]; simpl; intros H; [reflexivity|].
  rewrite (H a) by now left. apply IH. intros x Hx. apply H. now right.
Qed.

Lemma last_in (l : list A) (a d : A) : In (last (a :: l) d) (a :: l).
Proof.
  revert a. induction l as [|b l IH]; intros a; [now left|].
  right. apply IH.
Qed.

Lemma sorted_last_greatest (R : A -> A -> Prop) (l : list A) (a d : A) :
  (forall x, R x x) -> StronglySorted R (a :: l) ->
  forall x, In x (a :: l) -> R x (last (a :: l) d).
Proof.
  intros Hrefl. revert a.
  induction l as [|b l IH]; intros a Hs x Hin.
  - destruct Hin as [->|[]]. apply Hrefl.
  - apply StronglySorted_inv in Hs. destruct Hs as [Hs Hall].
    change (last (a :: b :: l) d) with (last (b :: l) d).
    destruct Hin as [->|Hin]; [|now apply IH].
    rewrite Forall_forall in Hall. apply Hall. apply last_in.
Qed.

End ListFacts.

Section ProgressFacts.
Import History Progress.

Lemma date_leb_refl (a : DateTime) : date_leb a a = true.
Proof.
  unfold date_leb. rewrite Z.eqb_refl, Z.leb_refl. apply orb_true_r.
Qed.

Lemma date_leb_trans (a b c : DateTime) :
  date_leb a b = true -> date_leb b c = true -> date_leb a c = true.
Proof.
  unfold date_leb. intros H1 H2.
  apply orb_true_iff in H1. apply orb_true_iff in H2.
  apply orb_true_iff.
  destruct H1 as [H1|H1], H2 as [H2|H2];
    repeat match goal with
           | H : (_ && _) = true |- _ =>
               apply andb_true_iff in H; destruct H
           | H : (_ <? _) = true |- _ => apply Z.ltb_lt in H
           | H : (_ =? _) = true |- _ => apply Z.eqb_eq in H
           | H : (_ <=? _) = true |- _ => apply Z.leb_le in H
           end.
  - left. apply Z.ltb_lt. lia.
  - left. apply Z.ltb_lt. lia.
  - left. apply Z.ltb_lt. lia.
  - right. apply andb_true_iff. split; [apply Z.eqb_eq|apply Z.leb_le]; lia.
Qed.

(** X13.  [get_progress_summary] answers [None] exactly when the table
    holds no scan of the url, whatever recommendations it holds. *)
Theorem get_progress_summary_none (scans : list ScanRecord)
    (recs : list Recommendation) (url : string) :
  get_progress_summary scans recs url = None <->
  forall r, In r scans -> scan_url r <> url.
Proof.
  unfold get_progress_summary, get_historical_data.
  set (l := filter (fun r => String.eqb (scan_url r) url) scans).
  pose proof (order_by_perm
                (fun a b => date_leb (scan_date a) (scan_date b)) l) as P.
  destruct (order_by _ l) as [|first rest] eqn:E.
  - apply Permutation_sym, Permutation_nil in P.
    split; [intros _|reflexivity].
    intros r Hin Hu. apply String.eqb_eq in Hu.
    assert (Hf : In r l) by (apply filter_In; auto).
    rewrite P in Hf. destruct Hf.
  - split; [discriminate|]. intros H. exfalso.
    assert (Hf : In first l).
    { eapply Permutation_in; [apply Permutation_sym, P|now left]. }
    apply filter_In in Hf. destruct Hf as [Hin Hu].
    apply String.eqb_eq in Hu. exact (H first Hin Hu).
Qed.

(** X14.  A summary counts every stored scan of the url, its improvement
    is the current score less the initial one, the initial score is that of
    a scan no other scan of the url predates and the current score that of
    a scan none postdates, and its two counts are the numbers of the url's
    recommendations with status [implemented] and [pending]. *)
Theorem get_progress_summary_some (scans : list ScanRecord)
    (recs : list Recommendation) (url : string) (s : Summary) :
  get_progress_summary scans recs url = Some s ->
  scan_count s
  = List.length (filter (fun r => String.eqb (scan_url r) url) scans) /\
  (1 <= scan_count s)%nat /\
  total_improvement s = current_score s - initial_score s /\
  (exists first latest,
     In first scans /\ scan_url first = url /\
     In latest scans /\ scan_url latest = url /\
     initial_score s = scan_total_score first /\
     current_score s = scan_total_score latest /\
     forall r, In r scans -> scan_url r = url ->
       date_leb (scan_date first) (scan_date r) = true /\
       date_leb (scan_date r) (scan_date latest) = true) /\
  implemented_changes s
  = List.length
      (filter (fun r => String.eqb (rec_url r) url &&
                        String.eqb (status r) "implemented") recs) /\
  pending_changes s
  = List.length
      (filter (fun r => String.eqb (rec_url r) url &&
                        String.eqb (status r) "pending") recs).
Proof.
  intros H.
  destruct (get_historical_data_scans_aux scans recs url) as (P & S & M).
  unfold get_progress_summary in H.
  unfold get_historical_data in *. cbn [fst] in P, S, M.
  set (df := order_by (fun a b => date_leb (scan_date a) (scan_date b))
               (filter (fun r => String.eqb (scan_url r) url) scans)) in *.
  pose proof (order_by_perm priority_desc_points_desc
                (filter (fun r => String.eqb (rec_url r) url) recs)) as PR.
  destruct df as [|first rest] eqn:E; [discriminate|].
  injection H as <-. cbn [scan_count total_improvement current_score
    initial_score implemented_changes pending_changes].
  assert (SS : StronglySorted
                 (fun a b => date_leb (scan_date a) (scan_date b) = true)
                 (first :: rest)).
  { apply Sorted_StronglySorted; [|exact S].
    intros a b c. apply date_leb_trans. }
  repeat apply conj.
  - symmetry. apply (Permutation_length P).
  - simpl. lia.
  - reflexivity.
  - exists first, (last (first :: rest) first).
    pose proof (last_in rest first first) as Hl.
    apply M in Hl. destruct Hl as [Hl1 Hl2].
    destruct (proj1 (M first) (or_introl eq_refl)) as [Hf1 Hf2].
    repeat apply conj; auto.
    intros r Hin Hu. assert (Hr : In r (first :: rest)) by (apply M; auto).
    split.
    + destruct Hr as [->|Hr]; [apply date_leb_refl|].
      apply StronglySorted_inv in SS. destruct SS as [_ Hall].
      rewrite Forall_forall in Hall. now apply Hall.
    + apply (sorted_last_greatest
               (fun a b => date_leb (scan_date a) (scan_date b) = true));
        auto. intros x. apply date_leb_refl.
  - unfold with_status.
    rewrite <- (filter_length_perm _ _ _ PR). now rewrite filter_twice.
  - unfold with_status.
    rewrite <- (filter_length_perm _ _ _ PR). now rewrite filter_twice.
Qed.

End ProgressFacts.

Section ProgressComposition.
Import History Progress.

(** X15.  The first scan stored for a url gives it a summary: one scan,
    initial and current score both the scan's total, improvement 0. *)
Theorem first_scan_summary (clk : Clock) (scans : list ScanRecord)
    (recs : list Recommendation) (url : string)
    (score_data : Scorer.ScoreResult) (structured_data faq mobile : bool)
    (performance_score : Z) :
  (forall r, In r scans -> scan_url r <> url) ->
  exists s,
    get_progress_summary
      (save_scan_results clk scans url score_data structured_data faq
                         mobile performance_score) recs url = Some s /\
    initial_score s = Scorer.total_score score_data /\
    current_score s = Scorer.total_score score_data /\
    total_improvement s = 0 /\
    scan_count s = 1%nat.
Proof.
  intros H.
  assert (N : forall p : ScanRecord -> bool,
            filter (fun r => String.eqb (scan_url r) url && p r) scans = []).
  { intros p. apply filter_none. intros x Hx.
    specialize (H x Hx). apply String.eqb_neq in H. now rewrite H. }
  assert (N' : filter (fun r => String.eqb (scan_url r) url) scans = []).
  { apply filter_none. intros x Hx.
    specialize (H x Hx). now apply String.eqb_neq in H. }
  unfold save_scan_results, count_recent. rewrite N. cbn [List.length Nat.ltb Nat.leb].
  unfold get_progress_summary, get_historical_data.
  rewrite filter_app, N'. cbn [filter scan_url app].
  rewrite String.eqb_refl. cbn [order_by insert_row last].
  eexists. split; [reflexivity|].
  cbn [initial_score current_score total_improvement scan_count
       scan_total_score List.length].
  repeat apply conj; try reflexivity. lia.
Qed.

Lemma first_scan_summary_witness :
  exists s,
    get_progress_summary
      (save_scan_results Samples.west [] "https://example.com"
                         Samples.score0 true true true 85)
      [] "https://example.com" = Some s /\
    total_improvement s = 0.
Proof.
  destruct (first_scan_summary Samples.west [] [] "https://example.com"
              Samples.score0 true true true 85) as (s & E & _ & _ & I & _).
  - intros r [].
  - exists s. auto.
Defined.

Lemma sum_points_ten (l : list Recommendation) :
  Forall (fun r => points_potential r = 10) l ->
  sum_points l = 10 * Z.of_nat (List.length l).
Proof.
  unfold sum_points. induction 1 as [|r l Hr _ IH]; [reflexivity|].
  cbn [map fold_right List.length]. rewrite IH, Hr. lia.
Qed.

Lemma save_loop_points (now : nat -> DateTime) (issues : list Issue) :
  forall (i : nat) (recs : list Recommendation) (url : string),
    Forall (fun x => points_available x = 10) issues ->
    Forall (fun r => points_potential r = 10) recs ->
    Forall (fun r => points_potential r = 10)
           (save_loop now i recs url issues).
Proof.
  induction issues as [|x rest IH]; intros i recs url Hi Hr; [exact Hr|].
  rewrite save_loop_cons. inversion Hi as [|? ? Hx Hrest]; subst.
  apply IH; [exact Hrest|]. unfold step.
  destruct (Nat.eqb _ 0); [|exact Hr].
  apply Forall_app. split; [exact Hr|]. repeat constructor. exact Hx.
Qed.

(** X16.  Every recommendation that the full analysis stores has a
    potential of 10 points; in a table filled this way, the
    implementation impact of any summary is ten times its number of
    implemented changes. *)
Theorem implementation_impact_tenfold (clk : Clock)
    (now : nat -> DateTime) (scans : list ScanRecord)
    (recs : list Recommendation) (url : string) (a : App.Analysis) :
  Forall (fun r => points_potential r = 10) recs ->
  let recs' := snd (App.store_analysis clk now scans recs url a) in
  Forall (fun r => points_potential r = 10) recs' /\
  (List.length recs' <= List.length recs + 3)%nat /\
  forall scans2 u s,
    get_progress_summary scans2 recs' u = Some s ->
    implementation_impact s = 10 * Z.of_nat (implemented_changes s).
Proof.
  intros Hr. cbv zeta. unfold App.store_analysis. cbn [snd].
  assert (Hp : Forall (fun r => points_potential r = 10)
                 (save_recommendations now recs url
                    (App.to_recommendations (App.top_issues a)))).
  { apply save_loop_points; [|exact Hr].
    unfold App.to_recommendations. apply Forall_forall.
    intros x Hx. apply in_map_iff in Hx. now destruct Hx as (i & <- & _). }
  repeat apply conj.
  - exact Hp.
  - destruct (save_loop_appends now
                (App.to_recommendations (App.top_issues a)) 0 recs url)
      as (added & E & L & _).
    unfold save_recommendations. rewrite E, length_app.
    unfold App.to_recommendations in L. rewrite length_map in L.
    pose proof (firstn_le_length 3 (App.top_issues a)). lia.
  - intros scans2 u s H. unfold get_progress_summary in H.
    unfold get_historical_data in H.
    destruct (order_by _ (filter _ scans2)); [discriminate|].
    injection H as <-. cbn [implementation_impact implemented_changes].
    apply sum_points_ten. unfold with_status.
    apply Forall_forall. intros r Hin. apply filter_In in Hin.
    destruct Hin as [Hin _].
    eapply Permutation_in in Hin; [|apply Permutation_sym, order_by_perm].
    apply filter_In in Hin. destruct Hin as [Hin _].
    rewrite Forall_forall in Hp. now apply Hp.
Qed.

End ProgressComposition.

(** ** Recommendation engine *)

Section QuickWinFacts.
Import QuickWins.

Lemma count_type_app (t : string) (l l' : list Issue) :
  count_type t (l ++ l') = (count_type t l + count_type t l')%nat.
Proof. unfold count_type. now rewrite filter_app, length_app. Qed.

Lemma count_type_when (t : string) (c : bool) (x : Issue) :
  count_type t (when c x) = Nat.b2n (c && String.eqb (type x) t).
Proof.
  unfold count_type, when. destruct c; simpl; [|reflexivity].
  destruct (String.eqb (type x) t); reflexivity.
Qed.

Lemma count_type_perm (t : string) (l l' : list Issue) :
  Permutation l l' -> count_type t l = count_type t l'.
Proof. apply filter_length_perm. Qed.

Lemma prioritize_perm (metadata : Scorer.Metadata) (headers : Scorer.Headers)
    (sd faq mob acc : bool) (speed : Extract.Metrics) :
  Permutation (found metadata headers sd faq mob acc speed)
              (prioritize_quick_wins metadata headers sd faq mob acc speed).
Proof. apply order_by_perm. Qed.

Lemma count_type_found (metadata : Scorer.Metadata)
    (headers : Scorer.Headers) (sd faq mob acc : bool)
    (speed : Extract.Metrics) :
  let l := found metadata headers sd faq mob acc speed in
  count_type "title" l = Nat.b2n (eq_Missing (Scorer.title metadata)) /\
  count_type "description" l
  = Nat.b2n (eq_Missing (Some (Scorer.description metadata))) /\
  count_type "h1" l = Nat.b2n (negb (Scorer.h1_present headers)) /\
  count_type "structured_data" l = Nat.b2n (negb sd) /\
  count_type "faq" l = Nat.b2n (negb faq) /\
  count_type "mobile" l = Nat.b2n (negb mob) /\
  count_type "accessibility" l = Nat.b2n (negb acc) /\
  count_type "speed" l
  = (Nat.b2n (Extract.Qgtb (Extract.time_to_first_byte speed) (inject_Z 200))
     + Nat.b2n (5000000 <? Extract.total_size speed)%Z
     + Nat.b2n (50 <? Extract.resource_count speed)%Z)%nat.
Proof.
  cbv zeta. unfold found.
  generalize (eq_Missing (Scorer.title metadata)) as c1.
  generalize (eq_Missing (Some (Scorer.description metadata))) as c2.
  generalize (negb (Scorer.h1_present headers)) as c3.
  generalize (negb sd) as c4. generalize (negb faq) as c5.
  generalize (negb mob) as c6. generalize (negb acc) as c7.
  generalize (Extract.Qgtb (Extract.time_to_first_byte speed) (inject_Z 200))
    as c8.
  generalize (5000000 <? Extract.total_size speed) as c9.
  generalize (50 <? Extract.resource_count speed) as c10.
  intros. rewrite !count_type_app, !count_type_when. cbn [type].
  repeat apply conj;
    repeat match goal with
           | |- context [String.eqb ?a ?b] =>
               let v := eval vm_compute in (String.eqb a b) in
               change (String.eqb a b) with v
           end;
    rewrite ?andb_false_r, ?andb_true_r; cbn [Nat.b2n]; lia.
Qed.

Lemma prioritize_quick_wins_counts_aux (metadata : Scorer.Metadata)
    (headers : Scorer.Headers) (sd faq mob acc : bool)
    (speed : Extract.Metrics) :
  let l := prioritize_quick_wins metadata headers sd faq mob acc speed in
  count_type "title" l = Nat.b2n (eq_Missing (Scorer.title metadata)) /\
  count_type "description" l
  = Nat.b2n (eq_Missing (Some (Scorer.description metadata))) /\
  count_type "h1" l = Nat.b2n (negb (Scorer.h1_present headers)) /\
  count_type "structured_data" l = Nat.b2n (negb sd) /\
  count_type "faq" l = Nat.b2n (negb faq) /\
  count_type "mobile" l = Nat.b2n (negb mob) /\
  count_type "accessibility" l = Nat.b2n (negb acc) /\
  count_type "speed" l
  = (Nat.b2n (Extract.Qgtb (Extract.time_to_first_byte speed)
                           (inject_Z 200))
     + Nat.b2n (5000000 <? Extract.total_size speed)%Z
     + Nat.b2n (50 <? Extract.resource_count speed)%Z)%nat.
Proof.
  cbv zeta.
  rewrite !(count_type_perm _ _ _
              (Permutation_sym
                 (prioritize_perm metadata headers sd faq mob acc speed))).
  apply count_type_found.
Qed.

Lemma length_found (metadata : Scorer.Metadata) (headers : Scorer.Headers)
    (sd faq mob acc : bool) (speed : Extract.Metrics) :
  List.length (found metadata headers sd faq mob acc speed) =
  (Nat.b2n (eq_Missing (Scorer.title metadata))
   + Nat.b2n (eq_Missing (Some (Scorer.description metadata)))
   + Nat.b2n (negb (Scorer.h1_present headers))
   + Nat.b2n (negb sd) + Nat.b2n (negb faq) + Nat.b2n (negb mob)
   + Nat.b2n (negb acc)
   + Nat.b2n (Extract.Qgtb (Extract.time_to_first_byte speed) (inject_Z 200))
   + Nat.b2n (5000000 <? Extract.total_size speed)%Z
   + Nat.b2n (50 <? Extract.resource_count speed)%Z)%nat.
Proof.
  assert (W : forall c x, List.length (when c x) = Nat.b2n c)
    by (intros [] x; reflexivity).
  unfold found. rewrite !length_app, !W. lia.
Qed.

Lemma length_when (c : bool) (x : Issue) :
  (List.length (when c x) <= 1)%nat.
Proof. destruct c; simpl; lia. Qed.

(** X17.  [prioritize_quick_wins] reports each unmet signal once and no
    met signal at all: one issue of the signal's type when the title or the
    description is [Missing], when there is no H1, no structured data, no
    FAQ, no viewport tag or an image without [alt], none otherwise; and one
    [speed] issue for each of the three speed thresholds that is exceeded.
    There are never more than ten issues. *)
Theorem prioritize_quick_wins_counts (metadata : Scorer.Metadata)
    (headers : Scorer.Headers) (sd faq mob acc : bool)
    (speed : Extract.Metrics) :
  let l := prioritize_quick_wins metadata headers sd faq mob acc speed in
  (count_type "title" l = Nat.b2n (eq_Missing (Scorer.title metadata)) /\
   count_type "description" l
   = Nat.b2n (eq_Missing (Some (Scorer.description metadata))) /\
   count_type "h1" l = Nat.b2n (negb (Scorer.h1_present headers)) /\
   count_type "structured_data" l = Nat.b2n (negb sd) /\
   count_type "faq" l = Nat.b2n (negb faq) /\
   count_type "mobile" l = Nat.b2n (negb mob) /\
   count_type "accessibility" l = Nat.b2n (negb acc) /\
   count_type "speed" l
   = (Nat.b2n (Extract.Qgtb (Extract.time_to_first_byte speed)
                            (inject_Z 200))
      + Nat.b2n (5000000 <? Extract.total_size speed)%Z
      + Nat.b2n (50 <? Extract.resource_count speed)%Z)%nat) /\
  (List.length l <= 10)%nat.
Proof.
  cbv zeta. split.
  - apply prioritize_quick_wins_counts_aux.
  - rewrite <- (Permutation_length
                  (prioritize_perm metadata headers sd faq mob acc speed)).
    unfold found. rewrite !length_app.
    repeat match goal with
           | |- context [List.length (when ?c ?x)] =>
               pose proof (length_when c x);
               generalize dependent (List.length (when c x)); intros
           end.
    lia.
Qed.

Lemma key_leb_le (a b : Issue) : key_leb a b = true <-> key_le a b.
Proof.
  unfold key_leb, key_le.
  rewrite orb_true_iff, andb_true_iff, Z.ltb_lt, Z.eqb_eq, Z.leb_le.
  tauto.
Qed.

Lemma key_leb_total (a b : Issue) :
  key_leb a b = true \/ key_leb b a = true.
Proof. rewrite !key_leb_le. unfold key_le. lia. Qed.

(** X18.  The list that [prioritize_quick_wins] returns holds the issues
    found, each once, by ascending priority number, and within one priority
    the low-effort issues before the others. *)
Theorem prioritize_quick_wins_sorted (metadata : Scorer.Metadata)
    (headers : Scorer.Headers) (sd faq mob acc : bool)
    (speed : Extract.Metrics) :
  let l := prioritize_quick_wins metadata headers sd faq mob acc speed in
  Permutation (found metadata headers sd faq mob acc speed) l /\
  StronglySorted key_le l.
Proof.
  cbv zeta. split; [apply prioritize_perm|].
  apply Sorted_StronglySorted.
  - intros a b c. unfold key_le. lia.
  - pose proof (order_by_sorted key_leb key_leb_total
                  (found metadata headers sd faq mob acc speed)) as H.
    unfold prioritize_quick_wins.
    induction H as [|a l Hs IH Hhd]; constructor; auto.
    destruct Hhd; constructor. now apply key_leb_le.
Qed.

Lemma found_priority (metadata : Scorer.Metadata) (headers : Scorer.Headers)
    (sd faq mob acc : bool) (speed : Extract.Metrics) (x : Issue) :
  In x (found metadata headers sd faq mob acc speed) -> 1 <= priority x.
Proof.
  unfold found, when. intros H.
  repeat (apply in_app_or in H; destruct H as [H|H]);
    match type of H with
    | In _ (if ?c then _ else _) => destruct c
    end;
    simpl in H; try contradiction;
    destruct H as [<-|H]; try contradiction; simpl; lia.
Qed.

(** X19.  When the title is [Missing], the title issue heads the list,
    whatever else was found. *)
Theorem prioritize_quick_wins_title_first (metadata : Scorer.Metadata)
    (headers : Scorer.Headers) (sd faq mob acc : bool)
    (speed : Extract.Metrics) :
  Scorer.title metadata = Some "Missing" ->
  exists rest,
    prioritize_quick_wins metadata headers sd faq mob acc speed
    = mkIssue "title" 1 "Low" "Add a descriptive title tag"
              "Best Italian Recipes | Easy Guide" :: rest.
Proof.
  intros Ht.
  pose proof (found_priority metadata headers sd faq mob acc speed) as Hp.
  unfold prioritize_quick_wins. unfold found in *. rewrite Ht in *.
  cbn [eq_Missing String.eqb Ascii.eqb Bool.eqb when app] in *.
  match goal with
  | |- context [History.order_by key_leb (?x :: ?l)] =>
      set (tail := l) in *; set (t := x) in *
  end.
  cbn [History.order_by].
  destruct (History.order_by key_leb tail) as [|y ys] eqn:E;
    cbn [History.insert_row]; [eauto|].
  assert (Hy : 1 <= priority y).
  { apply Hp. right.
    eapply Permutation_in; [apply Permutation_sym, order_by_perm|].
    rewrite E. now left. }
  assert (K : key_leb t y = true).
  { apply key_leb_le. unfold key_le, effort_rank. subst t. cbn [priority effort].
    destruct (String.eqb (effort y) "Low"); simpl; lia. }
  rewrite K. eauto.
Qed.

Lemma neq_Missing_negb (x : option string) :
  Scorer.neq_Missing x = negb (eq_Missing x).
Proof. destruct x; reflexivity. Qed.

(** X20.  Score and issues agree: the total score is 100 less the
    allocation of every signal for which an issue is reported (title 10,
    description 8, H1 15, structured data 25, FAQ 20, mobile 7,
    accessibility 5), less 10 when the performance score is below 80. *)
Theorem score_matches_issues (metadata : Scorer.Metadata)
    (headers : Scorer.Headers) (sd faq mob acc : bool)
    (speed : Extract.Metrics) :
  let l := prioritize_quick_wins metadata headers sd faq mob acc speed in
  let n t := Z.of_nat (count_type t l) in
  Scorer.total_score
    (Scorer.calculate_rankscore metadata headers sd faq mob acc
       (Extract.performance_score speed))
  = 100 - 10 * n "title" - 8 * n "description" - 15 * n "h1"
    - 25 * n "structured_data" - 20 * n "faq" - 7 * n "mobile"
    - 5 * n "accessibility"
    - (if 80 <=? Extract.performance_score speed then 0 else 10).
Proof.
  cbv zeta.
  destruct (prioritize_quick_wins_counts_aux metadata headers sd faq mob acc
              speed) as (-> & -> & -> & -> & -> & -> & -> & _).
  unfold Scorer.calculate_rankscore. cbn [Scorer.total_score].
  rewrite !neq_Missing_negb.
  destruct (eq_Missing (Scorer.title metadata)),
           (eq_Missing (Some (Scorer.description metadata))),
           (Scorer.h1_present headers), sd, faq, mob, acc,
           (80 <=? Extract.performance_score speed); reflexivity.
Qed.

End QuickWinFacts.

(** ** The remaining extractors *)

Section SignalFacts.
Import Html Signals.

(** X21.  FAQ markup is only ever found inside structured data: whenever
    [analyze_faq] answers true so does [analyze_structured_data], hence a
    score never holds the 20 FAQ points without the 25 points for
    structured data. *)
Theorem analyze_faq_structured (soup : Soup) (metadata : Scorer.Metadata)
    (headers : Scorer.Headers) (mob acc : bool) (perf : Z) :
  (analyze_faq soup = true -> analyze_structured_data soup = true) /\
  let c := Scorer.component_scores
             (Scorer.calculate_rankscore metadata headers
                (analyze_structured_data soup) (analyze_faq soup)
                mob acc perf) in
  (Scorer.c_faq c = 20 -> Scorer.c_structured_data c = 25).
Proof.
  assert (H : analyze_faq soup = true -> analyze_structured_data soup = true).
  { unfold analyze_faq, analyze_structured_data.
    destruct (ld_json_scripts soup) as [|t l]; simpl; [discriminate|].
    reflexivity. }
  split; [exact H|]. cbv zeta. simpl.
  destruct (analyze_faq soup); [|discriminate].
  rewrite (H eq_refl). reflexivity.
Qed.

Lemma analyze_faq_structured_witness :
  analyze_structured_data MoreSamples.page_faq = true.
Proof.
  apply (analyze_faq_structured MoreSamples.page_faq Samples.all_present
           Samples.with_h1 true true 85).
  reflexivity.
Defined.

(** The record of the [except] branch of [analyze_metadata]. *)
Let failed (e : Py.exn) : Scorer.Metadata :=
  {| Scorer.title := Some "Error";
     Scorer.description :=
       String.append "Error fetching metadata: " (Extract.str_of_exn e);
     Scorer.recommendation := "N/A" |}.

Lemma failed_scores (e : Py.exn) (headers : Scorer.Headers)
    (sd faq mob acc : bool) (speed : Extract.Metrics) :
  Scorer.metadata_subscore
    (Scorer.subscores
       (Scorer.calculate_rankscore (failed e) headers sd faq mob acc
          (Extract.performance_score speed))) = 18 /\
  QuickWins.count_type "title"
    (QuickWins.prioritize_quick_wins (failed e) headers sd faq mob acc speed)
  = 0%nat /\
  QuickWins.count_type "description"
    (QuickWins.prioritize_quick_wins (failed e) headers sd faq mob acc speed)
  = 0%nat.
Proof.
  destruct (prioritize_quick_wins_counts_aux (failed e) headers sd faq mob
              acc speed) as (-> & -> & _).
  repeat apply conj; reflexivity.
Qed.

(** X22.  When [analyze_metadata] cannot read the page (the request raises,
    the parse raises, or the description element has no [content]), it
    answers with the title [Error]; the scorer then counts title and
    description as present, 18 points, and neither a title nor a
    description issue is reported. *)
Theorem analyze_metadata_failure (w : Web) (url : string)
    (headers : Scorer.Headers) (sd faq mob acc : bool)
    (speed : Extract.Metrics) :
  ((exists e, requests_get w url = inl e) \/
   (exists resp e, requests_get w url = inr resp /\
                   BeautifulSoup w (response_text resp) = inl e) \/
   (exists resp soup d,
      requests_get w url = inr resp /\
      BeautifulSoup w (response_text resp) = inr soup /\
      find_description soup = Some d /\ has_attr d "content" = false)) ->
  let m := analyze_metadata w url in
  Scorer.title m = Some "Error" /\
  Scorer.metadata_subscore
    (Scorer.subscores
       (Scorer.calculate_rankscore m headers sd faq mob acc
          (Extract.performance_score speed))) = 18 /\
  QuickWins.count_type "title"
    (QuickWins.prioritize_quick_wins m headers sd faq mob acc speed) = 0%nat /\
  QuickWins.count_type "description"
    (QuickWins.prioritize_quick_wins m headers sd faq mob acc speed) = 0%nat.
Proof.
  intros H. cbv zeta.
  assert (E : exists e, analyze_metadata w url = failed e).
  { unfold analyze_metadata.
    destruct H as [(e & ->)|[(resp & e & -> & H)|(resp & soup & d & -> & H1 & H2 & H3)]].
    - exists e. reflexivity.
    - exists e. cbn [Py.bind]. rewrite H. reflexivity.
    - exists (Py.KeyError "content"). cbn [Py.bind]. rewrite H1.
      cbn [Py.bind]. rewrite H2. unfold getitem.
      unfold has_attr in H3.
      destruct (get_attr (attrs d) "content"); [discriminate|].
      reflexivity. }
  destruct E as [e ->]. split; [reflexivity|]. apply failed_scores.
Qed.

Lemma analyze_metadata_failure_witness :
  Scorer.title (analyze_metadata MoreSamples.unreachable "https://example.com")
  = Some "Error".
Proof.
  apply (analyze_metadata_failure MoreSamples.unreachable
           "https://example.com" Samples.with_h1 true true true true
           (Extract.fallback (Py.NameError "link"))).
  left. eexists. reflexivity.
Defined.

End SignalFacts.

Section MetadataFacts.
Import Html Signals.

(** X23.  On a page it can read, [analyze_metadata] counts the title as
    missing exactly when the page has no title element or the element's
    text is the word [Missing] itself (a title element without text counts
    as present), and the description as missing exactly when there is no
    description element or its [content] is the word [Missing] (an empty
    [content] counts as present). *)
Theorem analyze_metadata_missing (w : Web) (url : string) (resp : Response)
    (soup : Soup) :
  requests_get w url = inr resp ->
  BeautifulSoup w (response_text resp) = inr soup ->
  (forall d, find_description soup = Some d -> has_attr d "content" = true) ->
  let m := analyze_metadata w url in
  (QuickWins.eq_Missing (Scorer.title m) = true <->
   Html.title soup = None \/
   exists t, Html.title soup = Some t /\ text t = Some "Missing") /\
  (Scorer.description m = "Missing" <->
   find_description soup = None \/
   exists d, find_description soup = Some d /\
             get_attr (attrs d) "content" = Some "Missing") /\
  (Html.title soup <> None -> 
   (forall t, Html.title soup = Some t -> text t = None) ->
   Scorer.neq_Missing (Scorer.title m) = true).
Proof.
  intros Hget Hparse Hcontent. cbv zeta. unfold analyze_metadata.
  rewrite Hget. cbn [Py.bind]. rewrite Hparse. cbn [Py.bind].
  assert (D : exists c,
            match find_description soup with
            | Some d => getitem d "content"
            | None => Py.ret "Missing"
            end = inr c /\
            (c = "Missing" <->
             find_description soup = None \/
             exists d, find_description soup = Some d /\
                       get_attr (attrs d) "content" = Some "Missing")).
  { destruct (find_description soup) as [d|] eqn:F.
    - specialize (Hcontent d eq_refl). unfold has_attr in Hcontent.
      unfold getitem. destruct (get_attr (attrs d) "content") as [c|] eqn:G;
        [|discriminate].
      exists c. split; [reflexivity|]. split.
      + intros ->. right. exists d. auto.
      + intros [H|(d' & H & H')]; [discriminate|].
        injection H as <-. congruence.
    - exists "Missing". split; [reflexivity|]. split; auto. }
  destruct D as (c & -> & Dc). cbn [Py.bind Py.ret Py.try_except].
  cbn [Scorer.title Scorer.description].
  refine (conj _ (conj _ _)).
  - destruct (Html.title soup) as [t|]; simpl.
    + split.
      * intros H. right. exists t. split; [reflexivity|].
        destruct (text t) as [s|]; simpl in H; [|discriminate].
        apply String.eqb_eq in H. now subst.
      * intros [H|(t' & H & H')]; [discriminate|]. injection H as <-.
        rewrite H'. reflexivity.
    + split; auto.
  - exact Dc.
  - intros Hne Hnone. destruct (Html.title soup) as [t|]; [|contradiction].
    rewrite (Hnone t eq_refl). reflexivity.
Qed.

Lemma analyze_metadata_missing_witness :
  QuickWins.eq_Missing
    (Scorer.title
       (analyze_metadata (Samples.serve Samples.page_empty_alt)
                         "https://example.com")) = true.
Proof.
  destruct (analyze_metadata_missing (Samples.serve Samples.page_empty_alt)
              "https://example.com" (mkResponse "<html>")
              Samples.page_empty_alt) as (H & _).
  - reflexivity.
  - reflexivity.
  - intros d Hd. discriminate Hd.
  - apply H. left. reflexivity.
Defined.

End MetadataFacts.

(** ** The full analysis *)

Section AnalysisFacts.
Import App.

Variables (w w_meta w_speed : Web) (g : Extract.Globals)
          (base_url : Extract.UrlLib) (clk : Extract.Timing) (url : string).

Lemma analyze_full_inr (a : Analysis) :
  analyze_full w w_meta w_speed g base_url clk url = inr a ->
  exists resp soup,
    requests_get w url = inr resp /\
    BeautifulSoup w (response_text resp) = inr soup /\
    metadata a = Signals.analyze_metadata w_meta url /\
    headers a = Signals.analyze_headers soup /\
    structured_data a = Signals.analyze_structured_data soup /\
    faq_present a = Signals.analyze_faq soup /\
    mobile_friendly a = Signals.analyze_mobile_friendly soup /\
    accessibility a = Extract.analyze_accessibility soup /\
    speed_metrics a = Extract.analyze_page_speed w_speed g base_url clk url /\
    score_data a =
      Scorer.calculate_rankscore (metadata a) (headers a) (structured_data a)
        (faq_present a) (mobile_friendly a) (accessibility a)
        (Extract.performance_score (speed_metrics a)) /\
    top_issues a =
      QuickWins.prioritize_quick_wins (metadata a) (headers a)
        (structured_data a) (faq_present a) (mobile_friendly a)
        (accessibility a) (speed_metrics a).
Proof.
  unfold analyze_full.
  destruct (requests_get w url) as [e|resp]; [discriminate|]. cbn [Py.bind].
  destruct (BeautifulSoup w (response_text resp)) as [e|soup] eqn:P;
    [discriminate|]. cbn [Py.bind Py.ret].
  intros H. injection H as <-. exists resp, soup. rewrite P.
  cbn. repeat apply conj; reflexivity.
Qed.

(** X24.  In every full analysis the speed metrics are those of the
    [except] branch of [analyze_page_speed]: the performance score is 0,
    the speed component of the score is 0, the technical subscore is at
    most 7, the total is at most 90, and no [speed] issue is reported. *)
Theorem analyze_full_speed (a : Analysis) :
  analyze_full w w_meta w_speed g base_url clk url = inr a ->
  Extract.performance_score (speed_metrics a) = 0 /\
  Scorer.c_speed (Scorer.component_scores (score_data a)) = 0 /\
  Scorer.technical (Scorer.subscores (score_data a)) <= 7 /\
  0 <= Scorer.total_score (score_data a) <= 90 /\
  QuickWins.count_type "speed" (top_issues a) = 0%nat.
Proof.
  intros H. apply analyze_full_inr in H.
  destruct H as (resp & soup & _ & _ & _ & _ & _ & _ & _ & _ & Hs & Hd & Ht).
  destruct (analyze_page_speed_fallback w_speed g base_url clk url)
    as [e He].
  rewrite He in Hs. rewrite Hd, Ht, Hs.
  destruct (prioritize_quick_wins_counts_aux (metadata a) (headers a)
              (structured_data a) (faq_present a) (mobile_friendly a)
              (accessibility a) (Extract.fallback e))
    as (_ & _ & _ & _ & _ & _ & _ & ->).
  unfold Scorer.calculate_rankscore.
  cbn [Scorer.component_scores Scorer.subscores Scorer.c_speed
       Scorer.technical Scorer.total_score Extract.performance_score
       Extract.fallback].
  repeat apply conj; try reflexivity.
  - destruct (mobile_friendly a); simpl; lia.
  - destruct (structured_data a), (faq_present a),
             (Scorer.h1_present (headers a)),
             (Scorer.neq_Missing (Scorer.title (metadata a))),
             (Scorer.neq_Missing (Some (Scorer.description (metadata a)))),
             (mobile_friendly a), (accessibility a); simpl; lia.
  - destruct (structured_data a), (faq_present a),
             (Scorer.h1_present (headers a)),
             (Scorer.neq_Missing (Scorer.title (metadata a))),
             (Scorer.neq_Missing (Some (Scorer.description (metadata a)))),
             (mobile_friendly a), (accessibility a); simpl; lia.
Qed.

(** X25.  The full analysis raises exactly when its own request or the
    parse of its answer raises; a failure of the metadata request or of the
    speed measurement never stops it. *)
Theorem analyze_full_raises :
  (exists e, analyze_full w w_meta w_speed g base_url clk url = inl e) <->
  (exists e, requests_get w url = inl e) \/
  (exists resp e, requests_get w url = inr resp /\
                  BeautifulSoup w (response_text resp) = inl e).
Proof.
  unfold analyze_full.
  destruct (requests_get w url) as [e|resp]; cbn [Py.bind].
  - split; eauto.
  - destruct (BeautifulSoup w (response_text resp)) as [e|soup] eqn:P;
      cbn [Py.bind Py.ret].
    + split; [intros _|eauto]. right. eauto.
    + split.
      * intros [e H]. discriminate.
      * intros [[e H]|(r & e & H1 & H2)]; [discriminate|].
        injection H1 as <-. rewrite P in H2. discriminate.
Qed.

(** X26.  The Lite report passes [False] for four signals whatever the
    page holds, so its list always has the structured data, FAQ, mobile
    and accessibility issues, once each, never a speed issue, and between
    four and seven issues in all. *)
Theorem lite_issues_fixed (soup : Html.Soup) :
  let l := lite_issues w_meta w_speed g base_url clk url soup in
  QuickWins.count_type "structured_data" l = 1%nat /\
  QuickWins.count_type "faq" l = 1%nat /\
  QuickWins.count_type "mobile" l = 1%nat /\
  QuickWins.count_type "accessibility" l = 1%nat /\
  QuickWins.count_type "speed" l = 0%nat /\
  (4 <= List.length l <= 7)%nat.
Proof.
  cbv zeta. unfold lite_issues.
  destruct (analyze_page_speed_fallback w_speed g base_url clk url)
    as [e ->].
  set (m := Signals.analyze_metadata w_meta url).
  set (h := Signals.analyze_headers soup).
  destruct (prioritize_quick_wins_counts_aux m h false false false false
              (Extract.fallback e))
    as (_ & _ & _ & -> & -> & -> & -> & ->).
  repeat apply conj; try reflexivity;
    rewrite <- (Permutation_length
                  (prioritize_perm m h false false false false
                     (Extract.fallback e)));
    rewrite length_found;
    cbn [negb Nat.b2n Extract.fallback Extract.time_to_first_byte
         Extract.total_size Extract.resource_count];
    change (Extract.Qgtb 0 (inject_Z 200)) with false;
    change (5000000 <? 0) with false; change (50 <? 0) with false;
    cbn [Nat.b2n];
    destruct (QuickWins.eq_Missing (Scorer.title m)),
             (QuickWins.eq_Missing (Some (Scorer.description m))),
             (negb (Scorer.h1_present h)); cbn [Nat.b2n]; lia.
Qed.

End AnalysisFacts.

Lemma analyze_full_speed_witness :
  Scorer.total_score (App.score_data MoreSamples.analysis_titled) <= 90.
Proof.
  apply (analyze_full_speed (Samples.serve Samples.page_titled)
           (Samples.serve Samples.page_titled)
           (Samples.serve Samples.page_titled)
           Samples.module_globals Samples.origin Samples.quick
           "https://example.com").
  reflexivity.
Defined.

Lemma implementation_impact_tenfold_witness :
  Forall (fun r => History.points_potential r = 10)
         (snd (App.store_analysis Samples.west
                 (fun _ => History.mkDateTime 1700000000 0) []
                 [Samples.rec_title; Samples.rec_faq]
                 "https://example.com" MoreSamples.analysis0)).
Proof.
  apply (implementation_impact_tenfold Samples.west
           (fun _ => History.mkDateTime 1700000000 0) []
           [Samples.rec_title; Samples.rec_faq]
           "https://example.com" MoreSamples.analysis0).
  repeat constructor.
Defined.

Lemma prioritize_quick_wins_title_first_witness :
  exists rest,
    QuickWins.prioritize_quick_wins MoreSamples.untitled Samples.with_h1
      false true true true (Extract.fallback (Py.NameError "link"))
    = QuickWins.mkIssue "title" 1 "Low" "Add a descriptive title tag"
        "Best Italian Recipes | Easy Guide" :: rest.
Proof.
  apply (prioritize_quick_wins_title_first MoreSamples.untitled
           Samples.with_h1 false true true true
           (Extract.fallback (Py.NameError "link"))).
  reflexivity.
Defined.

(** ** The Flask service *)

Section FlaskFacts.
Import FlaskApi.

(** X27.  The [/analyze] endpoint answers 400 when the posted object has
    no url or an empty one, 500 with the message of the exception when the
    request or the parse raises, and otherwise 200 with the score 86.14
    and the same seven component values, whatever the page contains. *)
Theorem analyze_endpoint (w : Web) (data : list (string * string)) :
  (falsy (get data "url") = true ->
   analyze w data = mkHttp 400 (Error "URL is required")) /\
  (forall u, get data "url" = Some u -> u <> "" ->
     (forall e, requests_get w u = inl e ->
        analyze w data
        = mkHttp 500 (Error (String.append "Failed to analyze: "
                                           (Extract.str_of_exn e)))) /\
     (forall resp e, requests_get w u = inr resp ->
        BeautifulSoup w (response_text resp) = inl e ->
        analyze w data
        = mkHttp 500 (Error (String.append "Failed to analyze: "
                                           (Extract.str_of_exn e)))) /\
     (forall resp soup, requests_get w u = inr resp ->
        BeautifulSoup w (response_text resp) = inr soup ->
        analyze w data
        = mkHttp 200
            (Result u (4307 # 50)
               [("meta_score", 90); ("header_score", 80);
                ("structured_score", 70); ("faq_score", 100);
                ("mobile_score", 90); ("accessibility_score", 85);
                ("speed_score", 88)]))).
Proof.
  split.
  - unfold analyze. destruct (get data "url") as [u|]; [|reflexivity].
    intros H. now rewrite H.
  - intros u Hu Hne. unfold analyze. rewrite Hu.
    apply String.eqb_neq in Hne. cbn [falsy]. rewrite Hne.
    repeat apply conj.
    + intros e H. rewrite H. reflexivity.
    + intros resp e H1 H2. rewrite H1. cbn [Py.bind]. rewrite H2.
      reflexivity.
    + intros resp soup H1 H2. rewrite H1. cbn [Py.bind]. rewrite H2.
      reflexivity.
Qed.

End FlaskFacts.

Lemma analyze_endpoint_witness :
  FlaskApi.analyze (Samples.serve Samples.page_empty_alt)
                   MoreSamples.post_url
  = FlaskApi.mkHttp 200
      (FlaskApi.Result "https://example.com" (4307 # 50)
         [("meta_score", 90); ("header_score", 80);
          ("structured_score", 70); ("faq_score", 100);
          ("mobile_score", 90); ("accessibility_score", 85);
          ("speed_score", 88)]).
Proof.
  destruct (analyze_endpoint (Samples.serve Samples.page_empty_alt)
              MoreSamples.post_url) as (_ & H).
  destruct (H "https://example.com" eq_refl) as (_ & _ & H3);
    [discriminate|].
  apply (H3 (mkResponse "<html>") Samples.page_empty_alt); reflexivity.
Defined.

Lemma get_progress_summary_some_witness :
  exists s,
    Progress.get_progress_summary
      (History.save_scan_results Samples.west [] "https://example.com"
         Samples.score0 true true true 85)
      [Samples.rec_title; Samples.rec_faq] "https://example.com" = Some s /\
    Progress.pending_changes s = 2%nat.
Proof.
  assert (E : exists s,
            Progress.get_progress_summary
              (History.save_scan_results Samples.west []
                 "https://example.com" Samples.score0 true true true 85)
              [Samples.rec_title; Samples.rec_faq] "https://example.com"
            = Some s) by (eexists; reflexivity).
  destruct E as [s E]. exists s. split; [exact E|].
  rewrite (proj2 (proj2 (proj2 (proj2 (proj2
             (get_progress_summary_some _ _ _ _ E)))))).
  reflexivity.
Defined.
